(** * Azure FoundryAI code examples: the two command-line tools

    A shallow embedding of [azure_foundry_inference.py] (the direct
    chat-completion tool) and [azure_foundry_agent_inference.py] (the agent
    tool), and the properties of their request/response normalisation.

    - Python objects whose attributes are probed with [hasattr] are records
      whose optional attributes have an [option] type ([None]: the attribute
      is absent).
    - The dictionaries the scripts build have fixed keys; they are records.
    - A Python computation is a function from the state of the outside world
      (the SDK and the remote service) to an outcome, the next state of the
      world and the events it produced, in order: operations of the SDK
      (constructors and requests) with what each one gave, and calls of
      [print]. The functions of the scripts also record that they were
      entered; this ghost event has no counterpart in the Python text and
      only serves to say that a function was not called.
    - [try: ... except Exception as e: print(...); raise] and [sys.exit] are
      the combinators [try_except] and [sys_exit] of the module [Py]. *)

From Stdlib Require Import String Ascii List ZArith Bool.
From Stdlib Require Import Floats.PrimFloat.
Import ListNotations.
Local Open Scope string_scope.
Local Open Scope list_scope.

(* ------------------------------------------------------------------ *)
(** ** Python: exceptions, outcomes, and the monad of computations     *)
(* ------------------------------------------------------------------ *)

Module Py.

(** An instance of (a subclass of) [Exception]; [exc_str e] is [str(e)],
    what an f-string [{e}] prints. *)
Record Exception : Type := { exc_str : string }.

(** How a call ends: it returns, it raises an [Exception], or it raises
    [SystemExit] (which [except Exception] does not catch). *)
Inductive Outcome (A : Type) : Type :=
| Return (a : A)
| Raised (e : Exception)
| SystemExit (code : Z).
Arguments Return {A} a.
Arguments Raised {A} e.
Arguments SystemExit {A} code.

(** What an operation of an SDK does: it gives a value or raises. *)
Inductive Result (A : Type) : Type :=
| Ok (a : A)
| Err (e : Exception).
Arguments Ok {A} a.
Arguments Err {A} e.

(** What a run leaves behind, in order: the functions of the script that
    were entered, the SDK operations performed (constructors and remote
    calls) with what each one gave, and the arguments of [print]
    ([PrintJson j] is [print(json.dumps(j, indent=2))]). *)
Inductive Event (Call Resp Json : Type) : Type :=
| Enter (f : string)
| Sdk (c : Call) (r : Result Resp)
| Print (text : string)
| PrintJson (j : Json).
Arguments Enter {Call Resp Json} f.
Arguments Sdk {Call Resp Json} c r.
Arguments Print {Call Resp Json} text.
Arguments PrintJson {Call Resp Json} j.

Section Computation.
Context {W Ev : Type}.

(** A computation over the world [W] emitting events [Ev]. *)
Definition M (A : Type) : Type := W -> Outcome A * W * list Ev.

Definition ret {A} (a : A) : M A := fun w => (Return a, w, []).

Definition bind {A B} (m : M A) (f : A -> M B) : M B :=
  fun w =>
    match m w with
    | (Return a, w1, t1) =>
        match f a w1 with
        | (r, w2, t2) => (r, w2, t1 ++ t2)
        end
    | (Raised e, w1, t1) => (Raised e, w1, t1)
    | (SystemExit c, w1, t1) => (SystemExit c, w1, t1)
    end.

(** [raise e], and the bare [raise] of a handler applied to the exception
    being handled. *)
Definition raise {A} (e : Exception) : M A := fun w => (Raised e, w, []).

(** [sys.exit(code)]. *)
Definition sys_exit {A} (code : Z) : M A := fun w => (SystemExit code, w, []).

Definition emit (ev : Ev) : M unit := fun w => (Return tt, w, [ev]).

(** [try: body  except Exception as e: handler e]. *)
Definition try_except {A} (body : M A) (handler : Exception -> M A) : M A :=
  fun w =>
    match body w with
    | (Raised e, w1, t1) =>
        match handler e w1 with
        | (r, w2, t2) => (r, w2, t1 ++ t2)
        end
    | other => other
    end.

(** [for x in l: body x]. *)
Fixpoint for_each {A} (l : list A) (body : A -> M unit) : M unit :=
  match l with
  | [] => ret tt
  | x :: rest => bind (body x) (fun _ => for_each rest body)
  end.

Definition outcome {A} (r : Outcome A * W * list Ev) : Outcome A := fst (fst r).
Definition events {A} (r : Outcome A * W * list Ev) : list Ev := snd r.
End Computation.

Section Events.
Context {W Call Resp Json : Type}.

(** An operation [c] of the SDK, performed by the world function [op]; the
    event records the operation and what it gave. *)
Definition sdk_call {X} (c : Call) (inj : X -> Resp) (op : W -> Result X * W)
  : @M W (Event Call Resp Json) X :=
  fun w =>
    match op w with
    | (Ok x, w1) => (Return x, w1, [Sdk c (Ok (inj x))])
    | (Err e, w1) => (Raised e, w1, [Sdk c (Err e)])
    end.

Definition enter (f : string) : @M W (Event Call Resp Json) unit := emit (Enter f).
Definition print (text : string) : @M W (Event Call Resp Json) unit := emit (Print text).
Definition print_json (j : Json) : @M W (Event Call Resp Json) unit := emit (PrintJson j).

(** Projections of a trace. *)
Fixpoint entered (evs : list (Event Call Resp Json)) : list string :=
  match evs with
  | [] => []
  | Enter f :: rest => f :: entered rest
  | _ :: rest => entered rest
  end.

Fixpoint sdk_ops (evs : list (Event Call Resp Json)) : list (Call * Result Resp) :=
  match evs with
  | [] => []
  | Sdk c r :: rest => (c, r) :: sdk_ops rest
  | _ :: rest => sdk_ops rest
  end.

Fixpoint printed (evs : list (Event Call Resp Json)) : list (string + Json) :=
  match evs with
  | [] => []
  | Print s :: rest => inl s :: printed rest
  | PrintJson j :: rest => inr j :: printed rest
  | _ :: rest => printed rest
  end.

(** The operations of the SDK that raised, each with its exception, in
    order. *)
Fixpoint sdk_errors (evs : list (Event Call Resp Json)) : list (Call * Exception) :=
  match evs with
  | [] => []
  | Sdk c (Err e) :: rest => (c, e) :: sdk_errors rest
  | _ :: rest => sdk_errors rest
  end.

(** What happened after the first exception the SDK raised. *)
Fixpoint after_error (evs : list (Event Call Resp Json)) : list (Event Call Resp Json) :=
  match evs with
  | [] => []
  | Sdk _ (Err _) :: rest => rest
  | _ :: rest => after_error rest
  end.
End Events.

(** The exit status of the process whose [main()] ended with [r]: 0 when
    [main] returns, the code of [sys.exit], 1 for an uncaught exception. *)
Definition exit_status {A} (r : Outcome A) : Z :=
  match r with
  | Return _ => 0%Z
  | Raised _ => 1%Z
  | SystemExit c => c
  end.

(** Strings: the newline character, [sep.join(l)], [s.split(c)] for a
    one-character separator, [s * n], and the truth value of a string. *)
Definition newline_char : ascii := ascii_of_nat 10.
Definition newline : string := String newline_char EmptyString.

Definition join (sep : string) (l : list string) : string := String.concat sep l.

Fixpoint split (c : ascii) (s : string) : list string :=
  match s with
  | EmptyString => [EmptyString]
  | String a rest =>
      if Ascii.eqb a c then EmptyString :: split c rest
      else match split c rest with
           | field :: fields => String a field :: fields
           | [] => [String a EmptyString]
           end
  end.

Fixpoint contains_char (c : ascii) (s : string) : bool :=
  match s with
  | EmptyString => false
  | String a rest => Ascii.eqb a c || contains_char c rest
  end.

Fixpoint str_mul (s : string) (n : nat) : string :=
  match n with
  | O => EmptyString
  | S k => s ++ str_mul s k
  end.

Definition truthy (s : string) : bool :=
  match s with
  | EmptyString => false
  | String _ _ => true
  end.

End Py.

Declare Scope py_scope.
Delimit Scope py_scope with py.
Notation "x <- c ;; k" := (Py.bind c (fun x => k))
  (at level 61, c at next level, right associativity) : py_scope.
Notation "c ;; k" := (Py.bind c (fun _ => k))
  (at level 61, right associativity) : py_scope.

(* ------------------------------------------------------------------ *)
(** ** azure_foundry_agent_inference.py                                 *)
(* ------------------------------------------------------------------ *)

Module AgentTool.
Import Py.

(** *** Objects of the SDK *)

(** [DefaultAzureCredential()]. *)
Inductive Credential : Type := DefaultAzureCredential.

(** [AIProjectClient(endpoint=..., credential=...)]. *)
Record AIProjectClient : Type :=
  { client_endpoint : string; client_credential : Credential }.

(** The thread [client.agents.threads.create()] gives; [thread.id]. *)
Record Thread : Type := { thread_id_of : string }.

(** The run [create_and_process] gives; [run_id_of] is [None] when the
    object has no attribute [id]. *)
Record Run : Type := { run_id_of : option string }.

(** [content.text]: an object with or without an attribute [value]. *)
Record TextDetails : Type := { value : option string }.

(** One fragment of a message's content, with or without an attribute
    [text]. *)
Record ContentPart : Type := { text : option TextDetails }.

(** A listed message: [msg.role], and [msg.content] when the attribute is
    there. *)
Record Message : Type := { role : string; content : option (list ContentPart) }.

(** An agent of the project: [agent.id], and [agent.name] and
    [agent.description] when the attributes are there. *)
Record Agent : Type :=
  { agent_id_of : string; agent_name : option string; agent_description : option string }.

(** The dictionary [{"type": ..., "text": ...}] posted as message content. *)
Record ContentBlock : Type := { block_type : string; block_text : string }.

(** *** Dictionaries the script builds *)

(** [message_dict]. *)
Record MessageDict : Type := { md_role : string; md_content : list string }.

(** [result] of [make_agent_inference_request]. *)
Record AgentResult : Type :=
  { thread_id : string;
    run_id : option string;
    messages : list MessageDict;
    agent_response : string }.

(** [agent_info]. *)
Record AgentInfo : Type := { info_id : string; info_name : string; info_description : string }.

(** *** The SDK as the script uses it *)

(** The operations the script performs, with their arguments.
    [MessagesList] stands for [client.agents.messages.list(...)] together
    with the iteration over what it gives: both are inside the same [try]. *)
Inductive Call : Type :=
| NewDefaultAzureCredential
| NewAIProjectClient (endpoint : string) (credential : Credential)
| ThreadsCreate (client : AIProjectClient)
| MessagesCreate (client : AIProjectClient) (thread role : string) (content : list ContentBlock)
| RunsCreateAndProcess (client : AIProjectClient) (thread agent : string)
| MessagesList (client : AIProjectClient) (thread : string)
| ListAgents (client : AIProjectClient).

(** Constructors work locally; the other operations are requests to the
    service. *)
Definition is_remote (c : Call) : bool :=
  match c with
  | NewDefaultAzureCredential | NewAIProjectClient _ _ => false
  | _ => true
  end.

Inductive Resp : Type :=
| Constructed
| GotThread (t : Thread)
| Posted
| GotRun (r : Run)
| GotMessages (l : list Message)
| GotAgents (l : list Agent).

Definition Ev : Type := Event Call Resp AgentResult.

(** The outside world: what each operation of the SDK gives in a state [W]
    of the world, and the state it leaves. *)
Record Service (W : Type) : Type :=
  { default_credential_init : W -> Result unit * W;
    project_client_init : string -> Credential -> W -> Result unit * W;
    threads_create : AIProjectClient -> W -> Result Thread * W;
    messages_create : AIProjectClient -> string -> string -> list ContentBlock -> W -> Result unit * W;
    runs_create_and_process : AIProjectClient -> string -> string -> W -> Result Run * W;
    messages_list : AIProjectClient -> string -> W -> Result (list Message) * W;
    agents_list_agents : AIProjectClient -> W -> Result (list Agent) * W }.
Arguments default_credential_init {W} _.
Arguments project_client_init {W} _.
Arguments threads_create {W} _.
Arguments messages_create {W} _.
Arguments runs_create_and_process {W} _.
Arguments messages_list {W} _.
Arguments agents_list_agents {W} _.

(** The parsed command line. *)
Record Args : Type :=
  { args_endpoint : string;
    args_agent_id : string;
    args_prompt : string;
    args_list_agents : bool }.

(** *** The script *)

Section Script.
Context {W : Type} (svc : Service W).
Local Open Scope py_scope.

Definition Prog (A : Type) : Type := @M W Ev A.

Definition create_agent_client (endpoint : string) : Prog AIProjectClient :=
  enter "create_agent_client" ;;
  try_except
    (sdk_call NewDefaultAzureCredential (fun _ => Constructed)
       (default_credential_init svc) ;;
     let credential := DefaultAzureCredential in
     sdk_call (NewAIProjectClient endpoint credential) (fun _ => Constructed)
       (project_client_init svc endpoint credential) ;;
     let client := {| client_endpoint := endpoint; client_credential := credential |} in
     ret client)
    (fun e => print ("Error creating client: " ++ exc_str e) ;; raise e).

(** The body of [for content in msg.content]: the value is appended when
    the fragment has a [text] that has a [value]. *)
Definition append_text (message_content : list string) (content : ContentPart)
  : list string :=
  match text content with
  | Some t =>
      match value t with
      | Some v => message_content ++ [v]
      | None => message_content
      end
  | None => message_content
  end.

Definition nonempty {A} (l : list A) : bool :=
  match l with
  | [] => false
  | _ :: _ => true
  end.

(** The body of [for msg in messages], on the two lists it grows:
    [result["messages"]] and [agent_responses]. *)
Definition normalize_message (state : list MessageDict * list string) (msg : Message)
  : list MessageDict * list string :=
  let (result_messages, agent_responses) := state in
  let message_dict := {| md_role := role msg; md_content := [] |} in
  match content msg with
  | Some (part :: parts) =>
      let message_dict :=
        {| md_role := md_role message_dict;
           md_content := fold_left append_text (part :: parts) (md_content message_dict) |} in
      let agent_responses :=
        if (md_role message_dict =? "assistant") && nonempty (md_content message_dict)
        then agent_responses ++ md_content message_dict
        else agent_responses in
      (result_messages ++ [message_dict], agent_responses)
  | Some [] | None => (result_messages ++ [message_dict], agent_responses)
  end.

(** From [result = {...}] to [return result]. *)
Definition build_result (thread : Thread) (run : Run) (listed : list Message)
  : AgentResult :=
  let (result_messages, agent_responses) :=
    fold_left normalize_message listed ([], []) in
  {| thread_id := thread_id_of thread;
     run_id := run_id_of run;
     messages := result_messages;
     agent_response :=
       if nonempty agent_responses then join newline agent_responses else EmptyString |}.

Definition make_agent_inference_request (endpoint agent_id prompt : string)
  : Prog AgentResult :=
  enter "make_agent_inference_request" ;;
  try_except
    (client <- create_agent_client endpoint ;;
     thread <- sdk_call (ThreadsCreate client) GotThread (threads_create svc client) ;;
     let user_content := [{| block_type := "text"; block_text := prompt |}] in
     sdk_call (MessagesCreate client (thread_id_of thread) "user" user_content)
       (fun _ => Posted)
       (messages_create svc client (thread_id_of thread) "user" user_content) ;;
     run <- sdk_call (RunsCreateAndProcess client (thread_id_of thread) agent_id) GotRun
              (runs_create_and_process svc client (thread_id_of thread) agent_id) ;;
     listed <- sdk_call (MessagesList client (thread_id_of thread)) GotMessages
                 (messages_list svc client (thread_id_of thread)) ;;
     ret (build_result thread run listed))
    (fun e => print ("Error: " ++ exc_str e) ;; raise e).

(** The body of [for agent in agents_list]. *)
Definition append_agent_info (agents : list AgentInfo) (agent : Agent) : list AgentInfo :=
  let agent_info :=
    {| info_id := agent_id_of agent;
       info_name := match agent_name agent with Some n => n | None => "Unknown" end;
       info_description :=
         match agent_description agent with Some d => d | None => EmptyString end |} in
  agents ++ [agent_info].

Definition list_agents (endpoint : string) : Prog (list AgentInfo) :=
  enter "list_agents" ;;
  try_except
    (client <- create_agent_client endpoint ;;
     agents_list <- sdk_call (ListAgents client) GotAgents (agents_list_agents svc client) ;;
     ret (fold_left append_agent_info agents_list []))
    (fun e => print ("Error: " ++ exc_str e) ;; raise e).

(** The lines printed for one agent of the listing. *)
Definition print_agent (agent : AgentInfo) : Prog unit :=
  print ("- " ++ info_name agent ++ " (ID: " ++ info_id agent ++ ")") ;;
  if truthy (info_description agent)
  then print ("  Description: " ++ info_description agent)
  else ret tt.

Definition main (args : Args) : Prog unit :=
  enter "main" ;;
  try_except
    (if args_list_agents args then
       print "Fetching available agents..." ;;
       agents <- list_agents (args_endpoint args) ;;
       print (newline ++ "Available agents:") ;;
       for_each agents print_agent ;;
       ret tt
     else
       print ("Invoking agent: " ++ args_agent_id args) ;;
       print ("Prompt: " ++ args_prompt args) ;;
       print (str_mul "-" 50) ;;
       response <- make_agent_inference_request
                     (args_endpoint args) (args_agent_id args) (args_prompt args) ;;
       print "Response:" ;;
       print_json response ;;
       if truthy (agent_response response)
       then print (newline ++ "Agent Response:") ;; print (agent_response response)
       else ret tt)
    (fun e => print ("Error: " ++ exc_str e) ;; sys_exit 1).

End Script.

(** The requests to the service among the operations of a trace. *)
Definition remote_calls (evs : list Ev) : list Call :=
  filter is_remote (map fst (sdk_ops evs)).

End AgentTool.

(* ------------------------------------------------------------------ *)
(** ** azure_foundry_inference.py                                       *)
(* ------------------------------------------------------------------ *)

Module DirectTool.
Import Py.

(** [openai.AzureOpenAI(api_key=..., api_version=..., azure_endpoint=...)]. *)
Record AzureOpenAI : Type :=
  { api_key : string; api_version : string; azure_endpoint : string }.

(** One entry of [messages]. *)
Record ChatMessage : Type := { msg_role : string; msg_content : string }.

(** [choice.message] of a response: [content] may be [None]. *)
Record ResponseMessage : Type := { role : string; content : option string }.
Record Choice : Type := { message : ResponseMessage }.

(** The chat completion the service answers with. *)
Record ChatCompletion : Type :=
  { response_id : string; response_model : string; choices : list Choice }.

(** *** Dictionaries the script builds *)

Record MessageEntry : Type := { entry_role : string; entry_content : option string }.
(** [choice_dict]. *)
Record ChoiceDict : Type := { choice_message : MessageEntry }.

(** [result] of [make_inference_request]. *)
Record InferenceResult : Type :=
  { result_id : string; result_model : string; result_choices : list ChoiceDict }.

(** An entry of the list [list_models] returns. *)
Record ModelInfo : Type := { model_name : string; model_model : string }.

(** *** The SDK as the script uses it *)

Inductive Call : Type :=
| NewAzureOpenAI (key version endpoint : string)
| ChatCompletionsCreate (client : AzureOpenAI) (model : string)
    (messages : list ChatMessage) (max_tokens : Z) (temperature : float).

Definition is_remote (c : Call) : bool :=
  match c with
  | NewAzureOpenAI _ _ _ => false
  | ChatCompletionsCreate _ _ _ _ _ => true
  end.

Inductive Resp : Type :=
| Constructed
| GotCompletion (r : ChatCompletion).

Definition Ev : Type := Event Call Resp InferenceResult.

Record Service (W : Type) : Type :=
  { azure_openai_init : string -> string -> string -> W -> Result unit * W;
    chat_completions_create :
      AzureOpenAI -> string -> list ChatMessage -> Z -> float -> W -> Result ChatCompletion * W }.
Arguments azure_openai_init {W} _.
Arguments chat_completions_create {W} _.

(** The parsed command line. *)
Record Args : Type :=
  { args_endpoint : string;
    args_api_key : string;
    args_model : string;
    args_prompt : string;
    args_max_tokens : Z;
    args_temperature : float;
    args_list_models : bool }.

Section Script.
Context {W : Type} (svc : Service W).
Local Open Scope py_scope.

Definition Prog (A : Type) : Type := @M W Ev A.

(** [client = openai.AzureOpenAI(...)], the same in both functions. *)
Definition new_client (endpoint key : string) : Prog AzureOpenAI :=
  sdk_call (NewAzureOpenAI key "2024-02-01" endpoint) (fun _ => Constructed)
    (azure_openai_init svc key "2024-02-01" endpoint) ;;
  ret {| api_key := key; api_version := "2024-02-01"; azure_endpoint := endpoint |}.

(** The body of [for choice in response.choices]. *)
Definition append_choice (result_choices : list ChoiceDict) (choice : Choice)
  : list ChoiceDict :=
  let choice_dict :=
    {| choice_message :=
         {| entry_role := role (message choice);
            entry_content := content (message choice) |} |} in
  result_choices ++ [choice_dict].

Definition make_inference_request (endpoint key deployment_name prompt : string)
  (max_tokens : Z) (temperature : float) : Prog InferenceResult :=
  enter "make_inference_request" ;;
  try_except
    (client <- new_client endpoint key ;;
     let messages := [{| msg_role := "user"; msg_content := prompt |}] in
     response <- sdk_call
                   (ChatCompletionsCreate client deployment_name messages max_tokens temperature)
                   GotCompletion
                   (chat_completions_create svc client deployment_name messages
                      max_tokens temperature) ;;
     ret {| result_id := response_id response;
            result_model := response_model response;
            result_choices := fold_left append_choice (choices response) [] |})
    (fun e => print ("Error: " ++ exc_str e) ;; raise e).

Definition list_models (endpoint key : string) : Prog (list ModelInfo) :=
  enter "list_models" ;;
  try_except
    (client <- new_client endpoint key ;;
     ret [ {| model_name := "gpt-4"; model_model := "gpt-4" |};
           {| model_name := "gpt-3.5-turbo"; model_model := "gpt-3.5-turbo" |} ])
    (fun e => print ("Error: " ++ exc_str e) ;; raise e).

(** [response['choices'][0].get('message', {}).get('content', '')] when
    there is a first choice, and whether it is printed. *)
Definition print_generated_text (response : InferenceResult) : Prog unit :=
  match result_choices response with
  | first :: _ =>
      match entry_content (choice_message first) with
      | Some generated_text =>
          if truthy generated_text
          then print (newline ++ "Generated text:") ;; print generated_text
          else ret tt
      | None => ret tt
      end
  | [] => ret tt
  end.

Definition main (args : Args) : Prog unit :=
  enter "main" ;;
  try_except
    (if args_list_models args then
       print "Fetching available models..." ;;
       models <- list_models (args_endpoint args) (args_api_key args) ;;
       print (newline ++ "Available models:") ;;
       for_each models (fun model =>
         print ("- " ++ model_name model ++ " (" ++ model_model model ++ ")")) ;;
       ret tt
     else
       print ("Making inference request with model: " ++ args_model args) ;;
       print ("Prompt: " ++ args_prompt args) ;;
       print (str_mul "-" 50) ;;
       response <- make_inference_request (args_endpoint args) (args_api_key args)
                     (args_model args) (args_prompt args)
                     (args_max_tokens args) (args_temperature args) ;;
       print "Response:" ;;
       print_json response ;;
       print_generated_text response)
    (fun e => print ("Error: " ++ exc_str e) ;; sys_exit 1).

End Script.

Definition remote_calls (evs : list Ev) : list Call :=
  filter is_remote (map fst (sdk_ops evs)).

(** The list [list_models] returns. *)
Definition placeholder_models : list ModelInfo :=
  [ {| model_name := "gpt-4"; model_model := "gpt-4" |};
    {| model_name := "gpt-3.5-turbo"; model_model := "gpt-3.5-turbo" |} ].

(** The entry of [choices] that stands for a choice of the response. *)
Definition choice_entry (ch : Choice) : ChoiceDict :=
  {| choice_message :=
       {| entry_role := role (message ch); entry_content := content (message ch) |} |}.

End DirectTool.

(* ------------------------------------------------------------------ *)
(** ** The normalised result described without loops                    *)
(* ------------------------------------------------------------------ *)

Module AgentSpec.
Import Py AgentTool.

(** The text value a fragment carries, if it carries one. *)
Definition fragment_value (p : ContentPart) : option string :=
  match text p with
  | Some t => value t
  | None => None
  end.

(** The values of the fragments that carry one, in order; the other
    fragments are left out. *)
Fixpoint text_values (parts : list ContentPart) : list string :=
  match parts with
  | [] => []
  | p :: rest =>
      match fragment_value p with
      | Some v => v :: text_values rest
      | None => text_values rest
      end
  end.

(** The text values found in a message. *)
Definition message_texts (m : Message) : list string :=
  match content m with
  | Some parts => text_values parts
  | None => []
  end.

Definition is_assistant (m : Message) : bool := AgentTool.role m =? "assistant".

(** A message none of whose fragments carries a text value: its content is
    absent, empty, or made of such fragments only. *)
Definition textless (m : Message) : Prop :=
  match content m with
  | Some parts => forall p, In p parts -> fragment_value p = None
  | None => True
  end.

(** Every text value found in the messages whose role is "assistant", in
    encounter order. *)
Definition assistant_texts (listed : list Message) : list string :=
  flat_map message_texts (filter is_assistant listed).

(** The entry of [messages] that stands for a listed message. *)
Definition normalized (m : Message) : MessageDict :=
  {| md_role := AgentTool.role m; md_content := message_texts m |}.


(** The operation gave a value: it did not raise. *)
Definition gave_value (op : Call * Result Resp) : Prop :=
  match snd op with
  | Ok _ => True
  | Err _ => False
  end.

(** The lines [main] prints for one entry of the agent listing. *)
Definition agent_lines (a : AgentInfo) : list string :=
  ("- " ++ info_name a ++ " (ID: " ++ info_id a ++ ")")%string
  :: (if truthy (info_description a)
      then [("  Description: " ++ info_description a)%string]
      else []).

(** The entry of the agent listing that stands for an agent. *)
Definition agent_entry (a : Agent) : AgentInfo :=
  {| info_id := agent_id_of a;
     info_name := match agent_name a with Some n => n | None => "Unknown" end;
     info_description :=
       match agent_description a with Some d => d | None => EmptyString end |}.

End AgentSpec.

(** A fragment value of some assistant message of the listing. *)
Definition assistant_fragment_value (listed : list AgentTool.Message) (v : string) : Prop :=
  exists m parts p,
    In m listed /\ AgentTool.role m = "assistant" /\
    AgentTool.content m = Some parts /\ In p parts /\
    AgentSpec.fragment_value p = Some v.

(* ------------------------------------------------------------------ *)
(** ** The error policy, on traces                                      *)
(* ------------------------------------------------------------------ *)

Module ErrorPolicy.
Import Py.

Section Policy.
Context {W Call Resp Json A : Type}.

(** The line a handler prints for [e]. *)
Definition error_line (e : Exception) : string := "Error: " ++ exc_str e.

(** A wrapper catches, prints and re-raises: whenever an operation [c] of
    the SDK raised [e] during the run, the run ends by raising [e], and
    after the failure nothing happened but the prints of [lines c e]. *)
Definition reraises (run : Outcome A * W * list (Event Call Resp Json))
  (lines : Call -> Exception -> list string) : Prop :=
  forall pre c e post,
    events run = pre ++ Sdk c (Err e) :: post ->
    outcome run = Raised e /\
    post = map Print (lines c e).

(** [main] catches once more, prints and exits: whenever an operation [c]
    of the SDK raised [e] during the run, the process ends with status 1,
    and after the failure nothing happened but the prints of [lines c e]
    by the wrappers and then the print of [main]. *)
Definition exits_with_status_1 (run : Outcome A * W * list (Event Call Resp Json))
  (lines : Call -> Exception -> list string) : Prop :=
  forall pre c e post,
    events run = pre ++ Sdk c (Err e) :: post ->
    outcome run = SystemExit 1 /\
    exit_status (outcome run) = 1%Z /\
    post = map Print (lines c e ++ [error_line e]).
End Policy.

(** What the wrappers print. In the direct tool one wrapper encloses every
    operation. In the agent tool the constructors are enclosed by
    [create_agent_client], itself called inside the wrapper of the request
    or of the listing. *)
Definition direct_lines (c : DirectTool.Call) (e : Exception) : list string :=
  [error_line e].

Definition constructor_lines (c : AgentTool.Call) (e : Exception) : list string :=
  [("Error creating client: " ++ exc_str e)%string].

Definition agent_lines (c : AgentTool.Call) (e : Exception) : list string :=
  if AgentTool.is_remote c then [error_line e]
  else constructor_lines c e ++ [error_line e].

End ErrorPolicy.

(* ------------------------------------------------------------------ *)
(** ** Scripted worlds, to run the scripts on                           *)
(* ------------------------------------------------------------------ *)

Module Demo.
Import Py AgentTool.

(** A world whose state counts the operations performed, and where each
    operation of the agent SDK gives what the script says. *)
Record AgentScript : Type :=
  { on_credential : Result unit;
    on_client : Result unit;
    on_thread : Result Thread;
    on_post : Result unit;
    on_run : Result Run;
    on_list : Result (list Message);
    on_agents : Result (list Agent) }.

Definition agent_service (sc : AgentScript) : Service nat :=
  {| default_credential_init := fun n => (on_credential sc, S n);
     project_client_init := fun _ _ n => (on_client sc, S n);
     threads_create := fun _ n => (on_thread sc, S n);
     messages_create := fun _ _ _ _ n => (on_post sc, S n);
     runs_create_and_process := fun _ _ _ n => (on_run sc, S n);
     messages_list := fun _ _ n => (on_list sc, S n);
     agents_list_agents := fun _ n => (on_agents sc, S n) |}.

Definition text_part (v : string) : ContentPart :=
  {| text := Some {| value := Some v |} |}.
Definition image_part : ContentPart := {| text := None |}.
Definition valueless_part : ContentPart := {| text := Some {| value := None |} |}.

(** A thread holding the user's prompt and two replies of the agent. *)
Definition listing : list Message :=
  [ {| AgentTool.role := "user"; content := Some [text_part "hi"] |};
    {| AgentTool.role := "assistant";
       content := Some [text_part "Hello."; image_part; valueless_part; text_part "How can I help?"] |};
    {| AgentTool.role := "assistant"; content := Some [image_part] |};
    {| AgentTool.role := "assistant"; content := None |};
    {| AgentTool.role := "assistant"; content := Some [text_part "Bye."] |} ].

Definition agents : list Agent :=
  [ {| agent_id_of := "A123"; agent_name := Some "helper"; agent_description := Some "answers" |};
    {| agent_id_of := "A124"; agent_name := None; agent_description := None |} ].

Definition answering (listed : list Message) : AgentScript :=
  {| on_credential := Ok tt;
     on_client := Ok tt;
     on_thread := Ok {| thread_id_of := "thread_1" |};
     on_post := Ok tt;
     on_run := Ok {| run_id_of := Some "run_1" |};
     on_list := Ok listed;
     on_agents := Ok agents |}.

Definition client : AIProjectClient :=
  {| client_endpoint := "E"; client_credential := DefaultAzureCredential |}.

(** [--endpoint E --agent-id A123 --prompt hi], and the same with
    [--list-agents]. *)
Definition hi : Args :=
  {| args_endpoint := "E"; args_agent_id := "A123"; args_prompt := "hi";
     args_list_agents := false |}.

Definition list_flag : Args :=
  {| args_endpoint := "E"; args_agent_id := "A123"; args_prompt := "hi";
     args_list_agents := true |}.

Definition throttled : Exception := {| exc_str := "(429) Too many requests" |}.

(** The service refuses to run the agent. *)
Definition failing_run : AgentScript :=
  {| on_credential := Ok tt;
     on_client := Ok tt;
     on_thread := Ok {| thread_id_of := "thread_1" |};
     on_post := Ok tt;
     on_run := Err throttled;
     on_list := Ok listing;
     on_agents := Ok agents |}.

(** The client cannot be constructed. *)
Definition failing_client : AgentScript :=
  {| on_credential := Ok tt;
     on_client := Err throttled;
     on_thread := Ok {| thread_id_of := "thread_1" |};
     on_post := Ok tt;
     on_run := Ok {| run_id_of := Some "run_1" |};
     on_list := Ok listing;
     on_agents := Ok agents |}.

(** A thread the agent has not answered on. *)
Definition unanswered_listing : list Message :=
  [ {| AgentTool.role := "user"; content := Some [text_part "hi"] |} ].

(** A reply of the agent over two lines. *)
Definition two_line_listing : list Message :=
  [ {| AgentTool.role := "assistant";
       content := Some [text_part ("a" ++ newline ++ "b")] |} ].

End Demo.

Module DemoDirect.
Import Py DirectTool.

(** A world for the direct tool: the state counts the operations, and the
    constructor and the completion call give what the script says. *)
Record DirectScript : Type :=
  { on_new : Result unit;
    on_complete : Result ChatCompletion }.

Definition direct_service (sc : DirectScript) : Service nat :=
  {| azure_openai_init := fun _ _ _ n => (on_new sc, S n);
     chat_completions_create := fun _ _ _ _ _ n => (on_complete sc, S n) |}.

Definition completion : ChatCompletion :=
  {| response_id := "chatcmpl-1";
     response_model := "gpt-4";
     choices :=
       [ {| message := {| role := "assistant"; content := Some "pong" |} |};
         {| message := {| role := "assistant"; content := None |} |} ] |}.

Definition answering : DirectScript :=
  {| on_new := Ok tt; on_complete := Ok completion |}.

Definition unreachable : Exception := {| exc_str := "Connection error." |}.

Definition failing_construction : DirectScript :=
  {| on_new := Err unreachable; on_complete := Ok completion |}.

Definition failing_request : DirectScript :=
  {| on_new := Ok tt; on_complete := Err unreachable |}.

Definition client : AzureOpenAI :=
  {| api_key := "K"; api_version := "2024-02-01";
     azure_endpoint := "https://x.openai.azure.com" |}.

(** [--endpoint https://x.openai.azure.com --api-key K --model gpt-4
    --prompt ping --max-tokens 5 --temperature 0]. *)
Definition ping : Args :=
  {| args_endpoint := "https://x.openai.azure.com";
     args_api_key := "K";
     args_model := "gpt-4";
     args_prompt := "ping";
     args_max_tokens := 5;
     args_temperature := 0%float;
     args_list_models := false |}.

Definition list_flag : Args :=
  {| args_endpoint := "https://x.openai.azure.com";
     args_api_key := "K";
     args_model := "gpt-4";
     args_prompt := "ping";
     args_max_tokens := 5;
     args_temperature := 0%float;
     args_list_models := true |}.

Definition ping_request : Call :=
  ChatCompletionsCreate client "gpt-4" [{| msg_role := "user"; msg_content := "ping" |}]
    5 0%float.

End DemoDirect.

(* ------------------------------------------------------------------ *)
(** ** What the tools print, described from the answers of the service  *)
(* ------------------------------------------------------------------ *)

Module Presentation.
Import Py.

(** The text the direct tool shows under "Generated text:": the content of
    the first choice of the answer, when there is a first choice and its
    content is a non-empty string. *)
Definition first_choice_text (response : DirectTool.ChatCompletion) : option string :=
  match DirectTool.choices response with
  | ch :: _ =>
      match DirectTool.content (DirectTool.message ch) with
      | Some t => if truthy t then Some t else None
      | None => None
      end
  | [] => None
  end.

(** The three lines both tools print before the request; [what] names the
    model or the agent. *)
Definition header {Json : Type} (what prompt : string) : list (string + Json) :=
  [ inl what; inl ("Prompt: " ++ prompt)%string; inl (str_mul "-" 50) ].

(** The entries of a result whose role is "assistant". *)
Definition assistant_entries (ms : list AgentTool.MessageDict) : list AgentTool.MessageDict :=
  filter (fun d => AgentTool.md_role d =? "assistant") ms.

End Presentation.

Module DemoExtra.
Import Py AgentTool.

(** The service answers, with a run object that has no [id]. *)
Definition run_without_id : Demo.AgentScript :=
  {| Demo.on_credential := Ok tt;
     Demo.on_client := Ok tt;
     Demo.on_thread := Ok {| thread_id_of := "thread_7" |};
     Demo.on_post := Ok tt;
     Demo.on_run := Ok {| run_id_of := None |};
     Demo.on_list := Ok Demo.listing;
     Demo.on_agents := Ok Demo.agents |}.

End DemoExtra.

Module DemoErrors.
Import Py AgentTool.

(** An error whose text spans two lines, as the credential chain reports
    its failures. *)
Definition no_credential : Exception :=
  {| exc_str :=
       "DefaultAzureCredential failed to retrieve a token from the included credentials."
       ++ newline ++ "Attempted credentials:" |}.

(** No credential can be constructed. *)
Definition failing_credential : Demo.AgentScript :=
  {| Demo.on_credential := Err no_credential;
     Demo.on_client := Ok tt;
     Demo.on_thread := Ok {| thread_id_of := "thread_1" |};
     Demo.on_post := Ok tt;
     Demo.on_run := Ok {| run_id_of := Some "run_1" |};
     Demo.on_list := Ok Demo.listing;
     Demo.on_agents := Ok Demo.agents |}.

End DemoErrors.

(* ------------------------------------------------------------------ *)
(** ** Lemmas on the loops                                              *)
(* ------------------------------------------------------------------ *)


(** Unfolding a script down to the operations of the world, and the cases
    of what the world gives. *)
Ltac unfold_script :=
  unfold AgentTool.main, AgentTool.make_agent_inference_request, AgentTool.list_agents,
    AgentTool.create_agent_client,
    DirectTool.main, DirectTool.make_inference_request, DirectTool.list_models,
    DirectTool.new_client,
    AgentTool.Prog, AgentTool.Ev, DirectTool.Prog, DirectTool.Ev,
    Py.try_except, Py.bind, Py.sdk_call, Py.enter, Py.print, Py.print_json, Py.emit,
    Py.raise, Py.sys_exit, Py.ret, Py.events, Py.outcome in *.

Ltac world_case op w :=
  lazymatch type of (op w) with
  | (Py.Result _ * _)%type =>
      let r := fresh "r" in
      let w' := fresh "w" in
      destruct (op w) as [[r|r] w'] eqn:?
  end.

Ltac world_cases :=
  repeat match goal with
  | |- context [match ?op ?w with _ => _ end] => world_case op w
  | H : context [match ?op ?w with _ => _ end] |- _ => world_case op w
  end.

Ltac find_event H :=
  cbn in H; repeat (destruct H as [H|H]; [try discriminate H|]); try contradiction H.

Section LoopLemmas.
Import Py AgentTool AgentSpec.

Lemma append_text_loop (parts : list ContentPart) (acc : list string) :
  fold_left append_text parts acc = acc ++ text_values parts.
Proof.
  revert acc; induction parts as [|p parts IH]; intros acc; simpl.
  - now rewrite app_nil_r.
  - rewrite IH. unfold append_text, fragment_value.
    destruct (text p) as [t|]; [destruct (value t) as [v|]|]; trivial.
    now rewrite <- app_assoc.
Qed.

Lemma nonempty_app_self {A} (l acc : list A) :
  (if nonempty l then acc ++ l else acc) = acc ++ l.
Proof. destruct l; simpl; trivial. now rewrite app_nil_r. Qed.

Lemma normalize_message_step (rm : list MessageDict) (ar : list string) (m : Message) :
  normalize_message (rm, ar) m =
  (rm ++ [normalized m], ar ++ (if is_assistant m then message_texts m else [])).
Proof.
  unfold normalize_message, normalized, message_texts, is_assistant.
  destruct (content m) as [[|p parts]|]; cbn [md_role md_content].
  - simpl text_values. destruct (AgentTool.role m =? "assistant"); now rewrite app_nil_r.
  - rewrite !(append_text_loop (p :: parts) []), app_nil_l.
    destruct (AgentTool.role m =? "assistant"); simpl andb; cbv iota.
    + now rewrite nonempty_app_self.
    + now rewrite app_nil_r.
  - destruct (AgentTool.role m =? "assistant"); now rewrite app_nil_r.
Qed.

Lemma normalize_loop (listed : list Message) (rm : list MessageDict) (ar : list string) :
  fold_left normalize_message listed (rm, ar) =
  (rm ++ map normalized listed, ar ++ assistant_texts listed).
Proof.
  revert rm ar; induction listed as [|m listed IH]; intros rm ar.
  - unfold assistant_texts; simpl. now rewrite !app_nil_r.
  - cbn [fold_left]. rewrite normalize_message_step, IH.
    unfold assistant_texts. cbn [map filter]. rewrite <- !app_assoc.
    destruct (is_assistant m); reflexivity.
Qed.

Lemma build_result_eq (th : Thread) (run : Run) (listed : list Message) :
  build_result th run listed =
  {| thread_id := thread_id_of th;
     run_id := run_id_of run;
     messages := map normalized listed;
     agent_response := join newline (assistant_texts listed) |}.
Proof.
  unfold build_result. rewrite normalize_loop. simpl.
  destruct (assistant_texts listed); reflexivity.
Qed.

Lemma append_agent_info_loop (agents : list Agent) (acc : list AgentInfo) :
  fold_left append_agent_info agents acc = acc ++ map agent_entry agents.
Proof.
  revert acc; induction agents as [|a agents IH]; intros acc; simpl.
  - now rewrite app_nil_r.
  - rewrite IH. unfold append_agent_info. now rewrite <- app_assoc.
Qed.

End LoopLemmas.

(* ------------------------------------------------------------------ *)
(** ** The agent tool: the normalised result                            *)
(* ------------------------------------------------------------------ *)

Section AgentResultFacts.
Import Py AgentTool AgentSpec.
Context {W : Type} (svc : Service W).

(** When the listing call gave [listed], the function returns the result
    built from it, for the thread the calls were made on. *)
Lemma request_returns_built_result (w : W) (endpoint agent_id prompt : string)
  (c : AIProjectClient) (tid : string) (listed : list Message) :
  In (Sdk (MessagesList c tid) (Ok (GotMessages listed)))
     (events (make_agent_inference_request svc endpoint agent_id prompt w)) ->
  exists th run,
    thread_id_of th = tid /\
    outcome (make_agent_inference_request svc endpoint agent_id prompt w)
    = Return (build_result th run listed).
Proof.
  unfold_script. intros H. world_cases; find_event H.
  injection H as <- <- <-.
  match goal with
  | |- context [Return (build_result ?th ?run _)] => exists th, run
  end.
  split; reflexivity.
Qed.

Lemma no_assistant_no_texts (listed : list Message) :
  (forall m, In m listed -> AgentTool.role m <> "assistant") ->
  assistant_texts listed = [].
Proof.
  unfold assistant_texts. induction listed as [|m listed IH]; intros H; simpl; trivial.
  unfold is_assistant at 1.
  destruct (String.eqb_spec (AgentTool.role m) "assistant") as [E|_].
  - exfalso. apply (H m); simpl; auto.
  - apply IH. intros m' Hm'. apply H. simpl; auto.
Qed.

End AgentResultFacts.

(** C1. For every sequence of messages the listing call returns,
    [make_agent_inference_request] returns a result whose [agent_response]
    is the newline-join, in encounter order, of every text fragment value
    found in the messages whose role is "assistant"; it is the empty string
    when no message has the role "assistant". *)
Theorem agent_response_joins_assistant_texts {W : Type} (svc : AgentTool.Service W) (w : W)
  (endpoint agent_id prompt : string)
  (c : AgentTool.AIProjectClient) (tid : string) (listed : list AgentTool.Message) :
  In (Py.Sdk (AgentTool.MessagesList c tid) (Py.Ok (AgentTool.GotMessages listed)))
     (Py.events (AgentTool.make_agent_inference_request svc endpoint agent_id prompt w)) ->
  exists result,
    Py.outcome (AgentTool.make_agent_inference_request svc endpoint agent_id prompt w)
    = Py.Return result /\
    AgentTool.agent_response result
    = Py.join Py.newline (AgentSpec.assistant_texts listed) /\
    ((forall m, In m listed -> AgentTool.role m <> "assistant") ->
     AgentTool.agent_response result = EmptyString).
Proof.
  intros H.
  destruct (request_returns_built_result svc w endpoint agent_id prompt c tid listed H)
    as (th & run & _ & Hout).
  exists (AgentTool.build_result th run listed). split; [exact Hout|].
  rewrite build_result_eq. cbn [AgentTool.agent_response]. split; [reflexivity|].
  intros Hno. now rewrite no_assistant_no_texts.
Qed.

Lemma agent_response_joins_assistant_texts_witness :
  let run := AgentTool.make_agent_inference_request
               (Demo.agent_service (Demo.answering Demo.listing)) "E" "A123" "hi" 0 in
  In (Py.Sdk (AgentTool.MessagesList Demo.client "thread_1")
        (Py.Ok (AgentTool.GotMessages Demo.listing)))
     (Py.events run) /\
  exists result,
    Py.outcome run = Py.Return result /\
    AgentTool.agent_response result
    = Py.join Py.newline (AgentSpec.assistant_texts Demo.listing) /\
    ((forall m, In m Demo.listing -> AgentTool.role m <> "assistant") ->
     AgentTool.agent_response result = EmptyString).
Proof.
  assert (H : In (Py.Sdk (AgentTool.MessagesList Demo.client "thread_1")
                    (Py.Ok (AgentTool.GotMessages Demo.listing)))
                (Py.events (AgentTool.make_agent_inference_request
                   (Demo.agent_service (Demo.answering Demo.listing)) "E" "A123" "hi" 0))).
  { cbn. do 7 right. left. reflexivity. }
  split; [exact H|].
  exact (agent_response_joins_assistant_texts
           (Demo.agent_service (Demo.answering Demo.listing)) 0 "E" "A123" "hi"
           Demo.client "thread_1" Demo.listing H).
Defined.

(** The agent tool on [--endpoint E --agent-id A123 --prompt hi]: the
    result for the scripted thread, and for a thread without a reply. *)
Example agent_run_on_the_thread :
  Py.outcome (AgentTool.make_agent_inference_request
                (Demo.agent_service (Demo.answering Demo.listing)) "E" "A123" "hi" 0)
  = Py.Return
      {| AgentTool.thread_id := "thread_1";
         AgentTool.run_id := Some "run_1";
         AgentTool.messages :=
           [ {| AgentTool.md_role := "user"; AgentTool.md_content := ["hi"] |};
             {| AgentTool.md_role := "assistant";
                AgentTool.md_content := ["Hello."; "How can I help?"] |};
             {| AgentTool.md_role := "assistant"; AgentTool.md_content := [] |};
             {| AgentTool.md_role := "assistant"; AgentTool.md_content := [] |};
             {| AgentTool.md_role := "assistant"; AgentTool.md_content := ["Bye."] |} ];
         AgentTool.agent_response :=
           ("Hello." ++ Py.newline ++ "How can I help?" ++ Py.newline ++ "Bye.")%string |}.
Proof. reflexivity. Qed.

Example agent_run_without_reply :
  Py.outcome (AgentTool.make_agent_inference_request
                (Demo.agent_service (Demo.answering Demo.unanswered_listing))
                "E" "A123" "hi" 0)
  = Py.Return
      {| AgentTool.thread_id := "thread_1";
         AgentTool.run_id := Some "run_1";
         AgentTool.messages :=
           [ {| AgentTool.md_role := "user"; AgentTool.md_content := ["hi"] |} ];
         AgentTool.agent_response := EmptyString |}.
Proof. reflexivity. Qed.

Section AgentListFacts.
Import Py AgentTool AgentSpec.

Lemma Forall2_map_r {A B} (P : A -> B -> Prop) (f : A -> B) (l : list A) :
  (forall a, P a (f a)) -> Forall2 P l (map f l).
Proof. intros H; induction l; simpl; constructor; auto. Qed.

Lemma text_values_In (parts : list ContentPart) (v : string) :
  In v (text_values parts) <-> exists p, In p parts /\ fragment_value p = Some v.
Proof.
  induction parts as [|p parts IH]; simpl.
  - split; [contradiction|]. now intros (p & [] & _).
  - destruct (fragment_value p) as [u|] eqn:E; simpl; rewrite IH; split.
    + intros [<-|(q & Hq & Hv)]; eauto.
    + intros (q & [<-|Hq] & Hv); [left; congruence|right; eauto].
    + intros (q & Hq & Hv); eauto.
    + intros (q & [<-|Hq] & Hv); [congruence|eauto].
Qed.

Lemma textless_no_texts (m : Message) : textless m -> message_texts m = [].
Proof.
  unfold textless, message_texts. destruct (content m) as [parts|]; trivial.
  intros H. destruct (text_values parts) as [|v vs] eqn:E; trivial.
  assert (Hin : In v (text_values parts)) by (rewrite E; simpl; auto).
  apply text_values_In in Hin. destruct Hin as (p & Hp & Hv).
  rewrite (H p Hp) in Hv. discriminate.
Qed.

Lemma assistant_texts_In (listed : list Message) (v : string) :
  In v (assistant_texts listed) <-> assistant_fragment_value listed v.
Proof.
  unfold assistant_texts, assistant_fragment_value. rewrite in_flat_map. split.
  - intros (m & Hm & Hv). apply filter_In in Hm. destruct Hm as [Hm Ha].
    unfold is_assistant in Ha. apply String.eqb_eq in Ha.
    unfold message_texts in Hv. destruct (content m) as [parts|] eqn:Ec; [|contradiction].
    apply text_values_In in Hv. destruct Hv as (p & Hp & Hv).
    exists m, parts, p. auto.
  - intros (m & parts & p & Hm & Hr & Hc & Hp & Hv). exists m. split.
    + apply filter_In. split; trivial. unfold is_assistant. now apply String.eqb_eq.
    + unfold message_texts. rewrite Hc. apply text_values_In. eauto.
Qed.

Lemma assistant_texts_skip (pre post : list Message) (m : Message) :
  message_texts m = [] ->
  assistant_texts (pre ++ m :: post) = assistant_texts (pre ++ post).
Proof.
  intros H. unfold assistant_texts. rewrite !filter_app, !flat_map_app. f_equal.
  simpl. destruct (is_assistant m); trivial. simpl. now rewrite H.
Qed.

(** [split] undoes [join] when no joined string holds the separator. *)
Lemma split_no_separator (c : ascii) (s : string) :
  contains_char c s = false -> split c s = [s].
Proof.
  induction s as [|a s IH]; simpl; trivial.
  destruct (Ascii.eqb a c); simpl; [discriminate|].
  intros H. now rewrite IH.
Qed.

Lemma split_field (c : ascii) (s t : string) :
  contains_char c s = false ->
  split c (s ++ String c t)%string = s :: split c t.
Proof.
  induction s as [|a s IH]; simpl.
  - now rewrite Ascii.eqb_refl.
  - destruct (Ascii.eqb a c); simpl; [discriminate|].
    intros H. now rewrite IH.
Qed.

Lemma split_join (c : ascii) (l : list string) :
  l <> [] ->
  (forall s, In s l -> contains_char c s = false) ->
  split c (join (String c EmptyString) l) = l.
Proof.
  unfold join. induction l as [|x l IH]; [congruence|]. intros _ H.
  destruct l as [|y l].
  - simpl. apply split_no_separator. apply H. simpl; auto.
  - change (String.concat (String c EmptyString) (x :: y :: l))
      with (x ++ String c (String.concat (String c EmptyString) (y :: l)))%string.
    rewrite split_field by (apply H; simpl; auto).
    f_equal. apply IH; [discriminate|]. intros s Hs. apply H. simpl in *. tauto.
Qed.

Lemma join_nonempty (sep : string) (l : list string) :
  join sep l <> EmptyString -> l <> [].
Proof. intros H ->. now apply H. Qed.

End AgentListFacts.

(** C4. For every sequence of messages the listing call returns, the
    [messages] field of the result has exactly one entry per listed message,
    in the order of the listing, each with the role of its message. *)
Theorem messages_follow_the_listing {W : Type} (svc : AgentTool.Service W) (w : W)
  (endpoint agent_id prompt : string)
  (c : AgentTool.AIProjectClient) (tid : string) (listed : list AgentTool.Message) :
  In (Py.Sdk (AgentTool.MessagesList c tid) (Py.Ok (AgentTool.GotMessages listed)))
     (Py.events (AgentTool.make_agent_inference_request svc endpoint agent_id prompt w)) ->
  exists result,
    Py.outcome (AgentTool.make_agent_inference_request svc endpoint agent_id prompt w)
    = Py.Return result /\
    length (AgentTool.messages result) = length listed /\
    Forall2 (fun m d => AgentTool.md_role d = AgentTool.role m)
      listed (AgentTool.messages result).
Proof.
  intros H.
  destruct (request_returns_built_result svc w endpoint agent_id prompt c tid listed H)
    as (th & run & _ & Hout).
  exists (AgentTool.build_result th run listed). split; [exact Hout|].
  rewrite build_result_eq. cbn [AgentTool.messages]. split.
  - apply length_map.
  - apply Forall2_map_r. reflexivity.
Qed.

Lemma messages_follow_the_listing_witness :
  let run := AgentTool.make_agent_inference_request
               (Demo.agent_service (Demo.answering Demo.listing)) "E" "A123" "hi" 0 in
  In (Py.Sdk (AgentTool.MessagesList Demo.client "thread_1")
        (Py.Ok (AgentTool.GotMessages Demo.listing)))
     (Py.events run) /\
  exists result,
    Py.outcome run = Py.Return result /\
    length (AgentTool.messages result) = length Demo.listing /\
    Forall2 (fun m d => AgentTool.md_role d = AgentTool.role m)
      Demo.listing (AgentTool.messages result).
Proof.
  assert (H : In (Py.Sdk (AgentTool.MessagesList Demo.client "thread_1")
                    (Py.Ok (AgentTool.GotMessages Demo.listing)))
                (Py.events (AgentTool.make_agent_inference_request
                   (Demo.agent_service (Demo.answering Demo.listing)) "E" "A123" "hi" 0))).
  { cbn. do 7 right. left. reflexivity. }
  split; [exact H|].
  exact (messages_follow_the_listing
           (Demo.agent_service (Demo.answering Demo.listing)) 0 "E" "A123" "hi"
           Demo.client "thread_1" Demo.listing H).
Defined.

(** C5. For every listed message, the function raises nothing on a fragment
    that lacks a text value (no [text], or a [text] without [value]): the
    normalised content of the message is the list of the values of the
    fragments that carry one, in order, so such a fragment is left out and
    every fragment with a value is kept. *)
Theorem fragments_without_text_are_omitted {W : Type} (svc : AgentTool.Service W) (w : W)
  (endpoint agent_id prompt : string)
  (c : AgentTool.AIProjectClient) (tid : string) (listed : list AgentTool.Message) :
  In (Py.Sdk (AgentTool.MessagesList c tid) (Py.Ok (AgentTool.GotMessages listed)))
     (Py.events (AgentTool.make_agent_inference_request svc endpoint agent_id prompt w)) ->
  exists result,
    Py.outcome (AgentTool.make_agent_inference_request svc endpoint agent_id prompt w)
    = Py.Return result /\
    Forall2
      (fun m d =>
         forall parts, AgentTool.content m = Some parts ->
           AgentTool.md_content d = AgentSpec.text_values parts /\
           (forall v, In v (AgentTool.md_content d) <->
                      exists p, In p parts /\ AgentSpec.fragment_value p = Some v))
      listed (AgentTool.messages result).
Proof.
  intros H.
  destruct (request_returns_built_result svc w endpoint agent_id prompt c tid listed H)
    as (th & run & _ & Hout).
  exists (AgentTool.build_result th run listed). split; [exact Hout|].
  rewrite build_result_eq. cbn [AgentTool.messages].
  apply Forall2_map_r. intros m parts Hc.
  unfold AgentSpec.normalized, AgentSpec.message_texts. rewrite Hc.
  cbn [AgentTool.md_content]. split; [reflexivity|]. intros v. apply text_values_In.
Qed.

Lemma fragments_without_text_are_omitted_witness :
  let run := AgentTool.make_agent_inference_request
               (Demo.agent_service (Demo.answering Demo.listing)) "E" "A123" "hi" 0 in
  In (Py.Sdk (AgentTool.MessagesList Demo.client "thread_1")
        (Py.Ok (AgentTool.GotMessages Demo.listing)))
     (Py.events run) /\
  exists result,
    Py.outcome run = Py.Return result /\
    Forall2
      (fun m d =>
         forall parts, AgentTool.content m = Some parts ->
           AgentTool.md_content d = AgentSpec.text_values parts /\
           (forall v, In v (AgentTool.md_content d) <->
                      exists p, In p parts /\ AgentSpec.fragment_value p = Some v))
      Demo.listing (AgentTool.messages result).
Proof.
  assert (H : In (Py.Sdk (AgentTool.MessagesList Demo.client "thread_1")
                    (Py.Ok (AgentTool.GotMessages Demo.listing)))
                (Py.events (AgentTool.make_agent_inference_request
                   (Demo.agent_service (Demo.answering Demo.listing)) "E" "A123" "hi" 0))).
  { cbn. do 7 right. left. reflexivity. }
  split; [exact H|].
  exact (fragments_without_text_are_omitted
           (Demo.agent_service (Demo.answering Demo.listing)) 0 "E" "A123" "hi"
           Demo.client "thread_1" Demo.listing H).
Defined.

(** C10, as stated, fails: a fragment value that holds a newline spans
    several lines of [agent_response], and these lines are not fragment
    values. Here the only reply is "a", newline, "b"; the response is not
    empty and its first line "a" is not a fragment value of any assistant
    message. *)
Lemma line_of_response_not_a_fragment_value :
  let run := AgentTool.make_agent_inference_request
               (Demo.agent_service (Demo.answering Demo.two_line_listing))
               "E" "A123" "hi" 0 in
  In (Py.Sdk (AgentTool.MessagesList Demo.client "thread_1")
        (Py.Ok (AgentTool.GotMessages Demo.two_line_listing)))
     (Py.events run) /\
  exists result,
    Py.outcome run = Py.Return result /\
    AgentTool.agent_response result <> EmptyString /\
    ~ (forall line,
         In line (Py.split Py.newline_char (AgentTool.agent_response result)) ->
         assistant_fragment_value Demo.two_line_listing line).
Proof.
  split; [cbn; do 7 right; left; reflexivity|].
  eexists. split; [reflexivity|]. split; [discriminate|].
  intros H. specialize (H "a"). cbn in H.
  destruct H as (m & parts & p & Hm & _ & Hc & Hp & Hv); [left; reflexivity|].
  destruct Hm as [<-|[]]. injection Hc as <-.
  destruct Hp as [<-|[]]. discriminate Hv.
Qed.

(** C10, amended. An assistant message none of whose fragments carries a
    text value (absent or empty content included) contributes nothing to
    [agent_response]: the response is the one the listing without that
    message gives, so no empty line stands for it in the newline join. When
    no fragment value of an assistant message holds a newline, the lines of
    a non-empty [agent_response] are exactly these fragment values, so
    every line is a fragment value of some assistant message. *)
Theorem textless_message_adds_nothing {W : Type} (svc : AgentTool.Service W) (w : W)
  (endpoint agent_id prompt : string)
  (c : AgentTool.AIProjectClient) (tid : string) (listed : list AgentTool.Message) :
  In (Py.Sdk (AgentTool.MessagesList c tid) (Py.Ok (AgentTool.GotMessages listed)))
     (Py.events (AgentTool.make_agent_inference_request svc endpoint agent_id prompt w)) ->
  exists result,
    Py.outcome (AgentTool.make_agent_inference_request svc endpoint agent_id prompt w)
    = Py.Return result /\
    (forall pre m post,
       listed = pre ++ m :: post ->
       AgentSpec.textless m ->
       AgentTool.agent_response result
       = Py.join Py.newline (AgentSpec.assistant_texts (pre ++ post))) /\
    ((forall v, assistant_fragment_value listed v ->
                Py.contains_char Py.newline_char v = false) ->
     AgentTool.agent_response result <> EmptyString ->
     Py.split Py.newline_char (AgentTool.agent_response result)
     = AgentSpec.assistant_texts listed /\
     forall line,
       In line (Py.split Py.newline_char (AgentTool.agent_response result)) ->
       assistant_fragment_value listed line).
Proof.
  intros H.
  destruct (request_returns_built_result svc w endpoint agent_id prompt c tid listed H)
    as (th & run & _ & Hout).
  exists (AgentTool.build_result th run listed). split; [exact Hout|].
  rewrite build_result_eq. cbn [AgentTool.agent_response]. split.
  - intros pre m post -> Hm.
    now rewrite assistant_texts_skip by (now apply textless_no_texts).
  - intros Hnl Hne.
    assert (E : Py.split Py.newline_char
                  (Py.join Py.newline (AgentSpec.assistant_texts listed))
                = AgentSpec.assistant_texts listed).
    { apply split_join.
      - now apply join_nonempty in Hne.
      - intros s Hs. apply Hnl. now apply assistant_texts_In. }
    split; [exact E|]. rewrite E. intros line. apply assistant_texts_In.
Qed.

Lemma textless_message_adds_nothing_witness :
  let run := AgentTool.make_agent_inference_request
               (Demo.agent_service (Demo.answering Demo.listing)) "E" "A123" "hi" 0 in
  In (Py.Sdk (AgentTool.MessagesList Demo.client "thread_1")
        (Py.Ok (AgentTool.GotMessages Demo.listing)))
     (Py.events run) /\
  exists result,
    Py.outcome run = Py.Return result /\
    (forall pre m post,
       Demo.listing = pre ++ m :: post ->
       AgentSpec.textless m ->
       AgentTool.agent_response result
       = Py.join Py.newline (AgentSpec.assistant_texts (pre ++ post))) /\
    ((forall v, assistant_fragment_value Demo.listing v ->
                Py.contains_char Py.newline_char v = false) ->
     AgentTool.agent_response result <> EmptyString ->
     Py.split Py.newline_char (AgentTool.agent_response result)
     = AgentSpec.assistant_texts Demo.listing /\
     forall line,
       In line (Py.split Py.newline_char (AgentTool.agent_response result)) ->
       assistant_fragment_value Demo.listing line).
Proof.
  assert (H : In (Py.Sdk (AgentTool.MessagesList Demo.client "thread_1")
                    (Py.Ok (AgentTool.GotMessages Demo.listing)))
                (Py.events (AgentTool.make_agent_inference_request
                   (Demo.agent_service (Demo.answering Demo.listing)) "E" "A123" "hi" 0))).
  { cbn. do 7 right. left. reflexivity. }
  split; [exact H|].
  exact (textless_message_adds_nothing
           (Demo.agent_service (Demo.answering Demo.listing)) 0 "E" "A123" "hi"
           Demo.client "thread_1" Demo.listing H).
Defined.

(** The hypotheses of the amended C10 hold on the scripted thread: its
    third and fourth messages are textless assistant messages, no value
    holds a newline, and the response has the three lines of the agent. *)
Example textless_messages_of_the_thread :
  AgentSpec.textless (nth 2 Demo.listing (AgentTool.Build_Message EmptyString None)) /\
  AgentSpec.textless (nth 3 Demo.listing (AgentTool.Build_Message EmptyString None)) /\
  (forall v, In v (AgentSpec.assistant_texts Demo.listing) ->
             Py.contains_char Py.newline_char v = false) /\
  Py.split Py.newline_char
    (AgentTool.agent_response
       (AgentTool.build_result (AgentTool.Build_Thread "thread_1")
          (AgentTool.Build_Run None) Demo.listing))
  = ["Hello."; "How can I help?"; "Bye."].
Proof.
  repeat split.
  - intros p [<-|[]]. reflexivity.
  - cbn. intros v [<-|[<-|[<-|[]]]]; reflexivity.
Qed.

(** C6. For every agent the listing call returns, [list_agents] returns an
    entry with the agent's id, its name or "Unknown" when it has none, and
    its description or the empty string when it has none; nothing is raised
    for a missing name or description. *)
Theorem list_agents_defaults {W : Type} (svc : AgentTool.Service W) (w : W)
  (endpoint : string) (c : AgentTool.AIProjectClient) (agents : list AgentTool.Agent) :
  In (Py.Sdk (AgentTool.ListAgents c) (Py.Ok (AgentTool.GotAgents agents)))
     (Py.events (AgentTool.list_agents svc endpoint w)) ->
  exists infos,
    Py.outcome (AgentTool.list_agents svc endpoint w) = Py.Return infos /\
    Forall2
      (fun a d =>
         AgentTool.info_id d = AgentTool.agent_id_of a /\
         AgentTool.info_name d
         = match AgentTool.agent_name a with Some n => n | None => "Unknown" end /\
         AgentTool.info_description d
         = match AgentTool.agent_description a with Some t => t | None => EmptyString end)
      agents infos.
Proof.
  unfold_script. intros H. world_cases; find_event H.
  injection H as <- <-. eexists. split; [reflexivity|].
  rewrite append_agent_info_loop. cbn [app].
  apply Forall2_map_r. intros a. cbn. auto.
Qed.

Lemma list_agents_defaults_witness :
  let run := AgentTool.list_agents
               (Demo.agent_service (Demo.answering Demo.listing)) "E" 0 in
  In (Py.Sdk (AgentTool.ListAgents Demo.client) (Py.Ok (AgentTool.GotAgents Demo.agents)))
     (Py.events run) /\
  exists infos,
    Py.outcome run = Py.Return infos /\
    Forall2
      (fun a d =>
         AgentTool.info_id d = AgentTool.agent_id_of a /\
         AgentTool.info_name d
         = match AgentTool.agent_name a with Some n => n | None => "Unknown" end /\
         AgentTool.info_description d
         = match AgentTool.agent_description a with Some t => t | None => EmptyString end)
      Demo.agents infos.
Proof.
  assert (H : In (Py.Sdk (AgentTool.ListAgents Demo.client)
                    (Py.Ok (AgentTool.GotAgents Demo.agents)))
                (Py.events (AgentTool.list_agents
                   (Demo.agent_service (Demo.answering Demo.listing)) "E" 0))).
  { cbn. do 4 right. left. reflexivity. }
  split; [exact H|].
  exact (list_agents_defaults
           (Demo.agent_service (Demo.answering Demo.listing)) 0 "E" Demo.client Demo.agents H).
Defined.

(* ------------------------------------------------------------------ *)
(** ** The direct tool                                                  *)
(* ------------------------------------------------------------------ *)

Section DirectFacts.
Import Py DirectTool.

Lemma append_choice_loop (l : list Choice) (acc : list ChoiceDict) :
  fold_left append_choice l acc = acc ++ map choice_entry l.
Proof.
  revert acc; induction l as [|ch l IH]; intros acc; simpl.
  - now rewrite app_nil_r.
  - rewrite IH. unfold append_choice. now rewrite <- app_assoc.
Qed.

End DirectFacts.



(** The direct tool on [--endpoint https://x.openai.azure.com --api-key K
    --model gpt-4 --prompt ping --max-tokens 5 --temperature 0]: the whole
    run when the service answers, and when the request fails. *)
Example direct_run_ping :
  DirectTool.main (DemoDirect.direct_service DemoDirect.answering) DemoDirect.ping 0
  = (Py.Return tt, 2,
     [ Py.Enter "main";
       Py.Print "Making inference request with model: gpt-4";
       Py.Print "Prompt: ping";
       Py.Print "--------------------------------------------------";
       Py.Enter "make_inference_request";
       Py.Sdk (DirectTool.NewAzureOpenAI "K" "2024-02-01" "https://x.openai.azure.com")
         (Py.Ok DirectTool.Constructed);
       Py.Sdk DemoDirect.ping_request
         (Py.Ok (DirectTool.GotCompletion DemoDirect.completion));
       Py.Print "Response:";
       Py.PrintJson
         {| DirectTool.result_id := "chatcmpl-1";
            DirectTool.result_model := "gpt-4";
            DirectTool.result_choices :=
              [ {| DirectTool.choice_message :=
                     {| DirectTool.entry_role := "assistant";
                        DirectTool.entry_content := Some "pong" |} |};
                {| DirectTool.choice_message :=
                     {| DirectTool.entry_role := "assistant";
                        DirectTool.entry_content := None |} |} ] |};
       Py.Print (Py.newline ++ "Generated text:")%string;
       Py.Print "pong" ]).
Proof. reflexivity. Qed.

Example direct_run_request_fails :
  DirectTool.main (DemoDirect.direct_service DemoDirect.failing_request) DemoDirect.ping 0
  = (Py.SystemExit 1, 2,
     [ Py.Enter "main";
       Py.Print "Making inference request with model: gpt-4";
       Py.Print "Prompt: ping";
       Py.Print "--------------------------------------------------";
       Py.Enter "make_inference_request";
       Py.Sdk (DirectTool.NewAzureOpenAI "K" "2024-02-01" "https://x.openai.azure.com")
         (Py.Ok DirectTool.Constructed);
       Py.Sdk DemoDirect.ping_request (Py.Err DemoDirect.unreachable);
       Py.Print "Error: Connection error.";
       Py.Print "Error: Connection error." ]).
Proof. reflexivity. Qed.

(** C9. [list_models] issues no request to the service, and whenever it
    returns it returns the fixed list of the two entries gpt-4 and
    gpt-3.5-turbo, whatever the endpoint and the key; it returns as soon as
    the client is constructed. *)
Theorem list_models_is_fixed {W : Type} (svc : DirectTool.Service W) (w : W)
  (endpoint key : string) :
  let run := DirectTool.list_models svc endpoint key w in
  DirectTool.remote_calls (Py.events run) = [] /\
  (forall models, Py.outcome run = Py.Return models ->
     models = [ {| DirectTool.model_name := "gpt-4"; DirectTool.model_model := "gpt-4" |};
                {| DirectTool.model_name := "gpt-3.5-turbo";
                   DirectTool.model_model := "gpt-3.5-turbo" |} ]) /\
  (In (Py.Sdk (DirectTool.NewAzureOpenAI key "2024-02-01" endpoint)
         (Py.Ok DirectTool.Constructed)) (Py.events run) ->
   Py.outcome run
   = Py.Return
       [ {| DirectTool.model_name := "gpt-4"; DirectTool.model_model := "gpt-4" |};
         {| DirectTool.model_name := "gpt-3.5-turbo";
            DirectTool.model_model := "gpt-3.5-turbo" |} ]).
Proof.
  unfold_script. cbn zeta. world_cases; cbn; (split; [reflexivity|split]).
  - intros models H. now injection H as <-.
  - reflexivity.
  - discriminate.
  - intros H. find_event H.
Qed.

Lemma list_models_is_fixed_witness :
  let run := DirectTool.list_models (DemoDirect.direct_service DemoDirect.answering)
               "https://x.openai.azure.com" "K" 0 in
  DirectTool.remote_calls (Py.events run) = [] /\
  Py.outcome run = Py.Return DirectTool.placeholder_models.
Proof.
  destruct (list_models_is_fixed (DemoDirect.direct_service DemoDirect.answering) 0
              "https://x.openai.azure.com" "K") as (Hnone & _ & Hret).
  split; [exact Hnone|].
  apply Hret. cbn. do 1 right. left. reflexivity.
Defined.

(* ------------------------------------------------------------------ *)
(** ** The agent tool: the order of the requests                        *)
(* ------------------------------------------------------------------ *)



(* ------------------------------------------------------------------ *)
(** ** Both tools: the listing flags and the errors                     *)
(* ------------------------------------------------------------------ *)

Section TraceFacts.
Import Py.
Context {Call Resp Json : Type}.
Let Event : Type := Py.Event Call Resp Json.

Lemma entered_prints (lines : list string) (rest : list Event) :
  entered (map Print lines ++ rest) = entered rest.
Proof. induction lines; simpl; trivial. Qed.

Lemma sdk_ops_prints (lines : list string) (rest : list Event) :
  sdk_ops (map Print lines ++ rest) = sdk_ops rest.
Proof. induction lines; simpl; trivial. Qed.

Lemma sdk_errors_prints (lines : list string) (rest : list Event) :
  sdk_errors (map Print lines ++ rest) = sdk_errors rest.
Proof. induction lines; simpl; trivial. Qed.

Lemma sdk_errors_only_prints (lines : list string) :
  sdk_errors (map (@Print Call Resp Json) lines) = [].
Proof. induction lines; simpl; trivial. Qed.

Lemma after_error_prints (lines : list string) (rest : list Event) :
  after_error (map Print lines ++ rest) = after_error rest.
Proof. induction lines; simpl; trivial. Qed.

Lemma printed_prints (lines : list string) (rest : list Event) :
  printed (map Print lines ++ rest) = map inl lines ++ printed rest.
Proof. induction lines; simpl; trivial. now f_equal. Qed.

(** A trace in which the SDK raised once is cut in one way only at an
    exception of the SDK. *)
Lemma single_error_split (evs pre post : list Event) (c c0 : Call) (e e0 : Exception) :
  sdk_errors evs = [(c0, e0)] ->
  evs = pre ++ Sdk c (Err e) :: post ->
  c = c0 /\ e = e0 /\ post = after_error evs.
Proof.
  intros He ->. revert He. induction pre as [|ev pre IH]; simpl.
  - intros H. injection H as -> -> H. auto.
  - destruct ev as [f|c' [x|e']|t|j]; auto.
    intros H. injection H as -> -> H. exfalso.
    clear IH. induction pre as [|ev pre IH]; simpl in H; [discriminate|].
    destruct ev as [f|c'' [x|e'']|t|j]; auto. discriminate.
Qed.

Lemma no_error_split (evs pre post : list Event) (c : Call) (e : Exception) :
  sdk_errors evs = [] ->
  evs = pre ++ Sdk c (Err e) :: post -> False.
Proof.
  intros He ->. induction pre as [|ev pre IH]; simpl in He; [discriminate|].
  destruct ev as [f|c' [x|e']|t|j]; auto. discriminate.
Qed.

End TraceFacts.

Section MainFacts.
Import Py.

Lemma print_agents_run {W : Type} (infos : list AgentTool.AgentInfo) (w : W) :
  for_each infos AgentTool.print_agent w
  = (Return tt, w, map Print (flat_map AgentSpec.agent_lines infos)).
Proof.
  revert w; induction infos as [|a infos IH]; intros w; [reflexivity|].
  cbn [for_each flat_map]. unfold bind at 1. unfold AgentTool.print_agent at 1.
  unfold AgentSpec.agent_lines at 1, bind, print, emit, ret.
  destruct (truthy (AgentTool.info_description a)); rewrite IH; reflexivity.
Qed.

Lemma print_generated_text_run {W : Type} (response : DirectTool.InferenceResult) (w : W) :
  exists lines,
    DirectTool.print_generated_text response w = (Return tt, w, map Print lines).
Proof.
  unfold DirectTool.print_generated_text.
  destruct (DirectTool.result_choices response) as [|first rest];
    [exists []; reflexivity|].
  destruct (DirectTool.entry_content (DirectTool.choice_message first)) as [t|];
    [|exists []; reflexivity].
  destruct (truthy t); [|exists []; reflexivity].
  exists [(newline ++ "Generated text:")%string; t]. reflexivity.
Qed.

End MainFacts.

(** C7. With [--list-models] the direct tool never enters
    [make_inference_request] and sends no request; when nothing raised it
    prints the listing and ends with status 0. With [--list-agents] the
    agent tool never enters [make_agent_inference_request] and sends no
    request but the agent listing; when that call gave the agents it prints
    the listing and ends with status 0. *)
Theorem listing_flags_skip_inference :
  (forall (W : Type) (svc : DirectTool.Service W) (w : W) (args : DirectTool.Args),
     DirectTool.args_list_models args = true ->
     let run := DirectTool.main svc args w in
     ~ In "make_inference_request" (Py.entered (Py.events run)) /\
     DirectTool.remote_calls (Py.events run) = [] /\
     (Py.sdk_errors (Py.events run) = [] ->
      Py.exit_status (Py.outcome run) = 0%Z /\
      Py.printed (Py.events run)
      = [ inl "Fetching available models...";
          inl (Py.newline ++ "Available models:")%string;
          inl "- gpt-4 (gpt-4)";
          inl "- gpt-3.5-turbo (gpt-3.5-turbo)" ])) /\
  (forall (W : Type) (svc : AgentTool.Service W) (w : W) (args : AgentTool.Args),
     AgentTool.args_list_agents args = true ->
     let run := AgentTool.main svc args w in
     ~ In "make_agent_inference_request" (Py.entered (Py.events run)) /\
     (forall c, In c (AgentTool.remote_calls (Py.events run)) ->
                exists client, c = AgentTool.ListAgents client) /\
     (forall c agents,
        In (Py.Sdk (AgentTool.ListAgents c) (Py.Ok (AgentTool.GotAgents agents)))
           (Py.events run) ->
        Py.exit_status (Py.outcome run) = 0%Z /\
        Py.printed (Py.events run)
        = inl "Fetching available agents..."
          :: inl (Py.newline ++ "Available agents:")%string
          :: map inl (flat_map AgentSpec.agent_lines
                        (map AgentSpec.agent_entry agents)))).
Proof.
  split.
  - intros W svc w args Hflag. unfold_script. rewrite Hflag. cbn zeta.
    world_cases; cbn.
    all: split;
      [intros H; repeat (destruct H as [H|H]; [discriminate H|]); exact H|].
    all: split; [reflexivity|]; intros H; try discriminate H.
    split; reflexivity.
  - intros W svc w args Hflag. unfold_script. rewrite Hflag. cbn zeta.
    world_cases; rewrite ?print_agents_run;
      repeat (progress (cbn; rewrite ?entered_prints, ?sdk_ops_prints, ?printed_prints)).
    all: split; [intros H; repeat (destruct H as [H|H]; [discriminate H|]); exact H|].
    all: split; [intros c H; repeat (destruct H as [H|H]; [eauto|]); contradiction H|].
    all: intros c agents H; find_event H.
    all: rewrite ?in_app_iff in H.
    all: try (destruct H as [H|H]; [apply in_map_iff in H; destruct H as (? & H & _); discriminate H|]).
    all: find_event H.
    injection H as _ <-. split; [reflexivity|].
    rewrite append_agent_info_loop, app_nil_r. reflexivity.
Qed.

Lemma listing_flags_skip_inference_witness :
  (let run := DirectTool.main (DemoDirect.direct_service DemoDirect.answering)
                DemoDirect.list_flag 0 in
   ~ In "make_inference_request" (Py.entered (Py.events run)) /\
   DirectTool.remote_calls (Py.events run) = [] /\
   Py.exit_status (Py.outcome run) = 0%Z) /\
  (let run := AgentTool.main (Demo.agent_service (Demo.answering Demo.listing))
                Demo.list_flag 0 in
   ~ In "make_agent_inference_request" (Py.entered (Py.events run)) /\
   Py.exit_status (Py.outcome run) = 0%Z /\
   Py.printed (Py.events run)
   = [ inl "Fetching available agents...";
       inl (Py.newline ++ "Available agents:")%string;
       inl "- helper (ID: A123)";
       inl "  Description: answers";
       inl "- Unknown (ID: A124)" ]).
Proof.
  destruct listing_flags_skip_inference as [Hdirect Hagent]. split.
  - destruct (Hdirect nat (DemoDirect.direct_service DemoDirect.answering) 0
                DemoDirect.list_flag eq_refl) as (Hnot & Hnone & Hok).
    split; [exact Hnot|]. split; [exact Hnone|]. exact (proj1 (Hok eq_refl)).
  - destruct (Hagent nat (Demo.agent_service (Demo.answering Demo.listing)) 0
                Demo.list_flag eq_refl) as (Hnot & _ & Hok).
    split; [exact Hnot|].
    apply (Hok Demo.client Demo.agents). cbn. do 6 right. left. reflexivity.
Defined.

Ltac settle_error H :=
  first
    [ exfalso; eapply no_error_split; [|exact H];
      repeat (progress (cbn; rewrite ?sdk_errors_prints, ?sdk_errors_only_prints));
      reflexivity
    | eapply single_error_split in H;
      [|repeat (progress (cbn; rewrite ?sdk_errors_prints, ?sdk_errors_only_prints));
        reflexivity];
      destruct H as (-> & -> & ->);
      repeat (progress (cbn; rewrite ?after_error_prints));
      repeat split; reflexivity ].

(** C8, as stated, fails: the message a wrapper prints is not always one
    line. The text of the error is printed as it is after the prefix, and
    here the credential cannot be constructed and the text of the error
    spans two lines: [make_agent_inference_request] raises it again, and
    what the wrappers printed for it holds a newline and is cut in two
    lines. *)
Lemma wrapper_message_spans_two_lines :
  let run := AgentTool.make_agent_inference_request
               (Demo.agent_service DemoErrors.failing_credential) "E" "A123" "hi" 0 in
  Py.outcome run = Py.Raised DemoErrors.no_credential /\
  Py.sdk_errors (Py.events run)
  = [(AgentTool.NewDefaultAzureCredential, DemoErrors.no_credential)] /\
  Py.printed (Py.events run)
  = [ inl ("Error creating client: " ++ Py.exc_str DemoErrors.no_credential)%string;
      inl ("Error: " ++ Py.exc_str DemoErrors.no_credential)%string ] /\
  length (Py.split Py.newline_char
            ("Error: " ++ Py.exc_str DemoErrors.no_credential)%string) = 2 /\
  ~ (forall line,
       In (inl line) (Py.printed (Py.events run)) ->
       Py.contains_char Py.newline_char line = false).
Proof.
  cbv zeta. repeat match goal with |- _ /\ _ => split end; try reflexivity.
  intros H.
  specialize (H ("Error: " ++ Py.exc_str DemoErrors.no_credential)%string).
  cbn in H. discriminate H. right. left. reflexivity.
Qed.

(** C8, amended. In both tools, whenever the construction of the client or
    a request raises an error: every wrapper around the operation prints
    one message for it and re-raises the same error; [main] catches it once
    more, prints "Error: " followed by its text, and the process ends with
    status 1. After the failure nothing happens but these prints: the error
    is never swallowed and no operation is tried again. Each message is one
    [print] of a fixed prefix ("Error: ", or "Error creating client: ")
    followed by the text of the error as it is: it is one line exactly when
    that text is. *)
Theorem errors_are_printed_and_propagated :
  (forall (W : Type) (svc : DirectTool.Service W) (w : W)
          (endpoint key model prompt : string) (max_tokens : Z) (temperature : float),
     ErrorPolicy.reraises
       (DirectTool.make_inference_request svc endpoint key model prompt
          max_tokens temperature w)
       ErrorPolicy.direct_lines) /\
  (forall (W : Type) (svc : DirectTool.Service W) (w : W) (endpoint key : string),
     ErrorPolicy.reraises (DirectTool.list_models svc endpoint key w)
       ErrorPolicy.direct_lines) /\
  (forall (W : Type) (svc : DirectTool.Service W) (w : W) (args : DirectTool.Args),
     ErrorPolicy.exits_with_status_1 (DirectTool.main svc args w)
       ErrorPolicy.direct_lines) /\
  (forall (W : Type) (svc : AgentTool.Service W) (w : W) (endpoint : string),
     ErrorPolicy.reraises (AgentTool.create_agent_client svc endpoint w)
       ErrorPolicy.constructor_lines) /\
  (forall (W : Type) (svc : AgentTool.Service W) (w : W)
          (endpoint agent_id prompt : string),
     ErrorPolicy.reraises
       (AgentTool.make_agent_inference_request svc endpoint agent_id prompt w)
       ErrorPolicy.agent_lines) /\
  (forall (W : Type) (svc : AgentTool.Service W) (w : W) (endpoint : string),
     ErrorPolicy.reraises (AgentTool.list_agents svc endpoint w)
       ErrorPolicy.agent_lines) /\
  (forall (W : Type) (svc : AgentTool.Service W) (w : W) (args : AgentTool.Args),
     ErrorPolicy.exits_with_status_1 (AgentTool.main svc args w)
       ErrorPolicy.agent_lines) /\
  (forall (e : Py.Exception) (line : string),
     In line [ErrorPolicy.error_line e;
              ("Error creating client: " ++ Py.exc_str e)%string] ->
     Py.contains_char Py.newline_char line
     = Py.contains_char Py.newline_char (Py.exc_str e)).
Proof.
  repeat match goal with |- _ /\ _ => split end;
    [intros W svc w ..|intros e line [<-|[<-|[]]]; reflexivity].
  - intros endpoint key model prompt max_tokens temperature pre c e post H.
    revert H. unfold_script. world_cases; intros H; settle_error H.
  - intros endpoint key pre c e post H.
    revert H. unfold_script. world_cases; intros H; settle_error H.
  - intros args pre c e post H.
    revert H. unfold_script. destruct (DirectTool.args_list_models args).
    + world_cases; intros H; settle_error H.
    + world_cases;
        try match goal with
            | |- context [DirectTool.print_generated_text ?r ?w1] =>
                destruct (print_generated_text_run r w1) as (lines & ->)
            end;
        intros H; settle_error H.
  - intros endpoint pre c e post H.
    revert H. unfold_script. world_cases; intros H; settle_error H.
  - intros endpoint agent_id prompt pre c e post H.
    revert H. unfold_script. world_cases; intros H; settle_error H.
  - intros endpoint pre c e post H.
    revert H. unfold_script. world_cases; intros H; settle_error H.
  - intros args pre c e post H.
    revert H. unfold_script. destruct (AgentTool.args_list_agents args).
    + world_cases; rewrite ?print_agents_run; intros H; settle_error H.
    + world_cases; intros H.
      all: try match goal with
               | H : context [Py.truthy ?s] |- _ => destruct (Py.truthy s)
               end.
      all: settle_error H.
Qed.

Lemma errors_are_printed_and_propagated_witness :
  (let run := AgentTool.main (Demo.agent_service Demo.failing_run) Demo.hi 0 in
   Py.outcome run = Py.SystemExit 1 /\
   Py.exit_status (Py.outcome run) = 1%Z /\
   skipn 11 (Py.events run)
   = [ Py.Print "Error: (429) Too many requests";
       Py.Print "Error: (429) Too many requests" ]) /\
  (let run := AgentTool.main (Demo.agent_service Demo.failing_client) Demo.hi 0 in
   Py.outcome run = Py.SystemExit 1 /\
   Py.exit_status (Py.outcome run) = 1%Z /\
   skipn 8 (Py.events run)
   = [ Py.Print "Error creating client: (429) Too many requests";
       Py.Print "Error: (429) Too many requests";
       Py.Print "Error: (429) Too many requests" ]) /\
  (let run := DirectTool.main (DemoDirect.direct_service DemoDirect.failing_construction)
                DemoDirect.ping 0 in
   Py.outcome run = Py.SystemExit 1 /\
   Py.exit_status (Py.outcome run) = 1%Z /\
   skipn 6 (Py.events run)
   = [ Py.Print "Error: Connection error."; Py.Print "Error: Connection error." ]).
Proof.
  destruct errors_are_printed_and_propagated
    as (_ & _ & Hdirect & _ & _ & _ & Hagent & _).
  split; [|split].
  - exact (Hagent nat (Demo.agent_service Demo.failing_run) 0 Demo.hi
             (firstn 10 (Py.events
                (AgentTool.main (Demo.agent_service Demo.failing_run) Demo.hi 0)))
             (AgentTool.RunsCreateAndProcess Demo.client "thread_1" "A123")
             Demo.throttled _ eq_refl).
  - exact (Hagent nat (Demo.agent_service Demo.failing_client) 0 Demo.hi
             (firstn 7 (Py.events
                (AgentTool.main (Demo.agent_service Demo.failing_client) Demo.hi 0)))
             (AgentTool.NewAIProjectClient "E" AgentTool.DefaultAzureCredential)
             Demo.throttled _ eq_refl).
  - exact (Hdirect nat (DemoDirect.direct_service DemoDirect.failing_construction) 0
             DemoDirect.ping
             (firstn 5 (Py.events
                (DirectTool.main (DemoDirect.direct_service DemoDirect.failing_construction)
                   DemoDirect.ping 0)))
             (DirectTool.NewAzureOpenAI "K" "2024-02-01" "https://x.openai.azure.com")
             DemoDirect.unreachable _ eq_refl).
Defined.

(* ------------------------------------------------------------------ *)
(** ** Further properties of the agent tool                             *)
(* ------------------------------------------------------------------ *)

Section AgentMore.
Import Py AgentTool AgentSpec.

(** A returned result was built from the thread, the run and the listing
    the service gave, in this run. *)
Lemma returned_result_is_built {W : Type} (svc : Service W) (w : W)
  (endpoint agent_id prompt : string) (result : AgentResult) :
  outcome (make_agent_inference_request svc endpoint agent_id prompt w) = Return result ->
  exists c th run listed,
    In (Sdk (ThreadsCreate c) (Ok (GotThread th)))
       (events (make_agent_inference_request svc endpoint agent_id prompt w)) /\
    In (Sdk (RunsCreateAndProcess c (thread_id_of th) agent_id) (Ok (GotRun run)))
       (events (make_agent_inference_request svc endpoint agent_id prompt w)) /\
    In (Sdk (MessagesList c (thread_id_of th)) (Ok (GotMessages listed)))
       (events (make_agent_inference_request svc endpoint agent_id prompt w)) /\
    result = build_result th run listed.
Proof.
  unfold_script. world_cases; cbn; intros H; try discriminate H.
  injection H as <-.
  match goal with
  | |- context [Sdk (ThreadsCreate ?c) (Ok (GotThread ?th)) = _] =>
      match goal with
      | |- context [build_result th ?run ?listed] => exists c, th, run, listed
      end
  end.
  repeat split.
  - do 4 right. left. reflexivity.
  - do 6 right. left. reflexivity.
  - do 7 right. left. reflexivity.
Qed.

Lemma assistant_entries_texts (listed : list Message) :
  flat_map md_content (Presentation.assistant_entries (map normalized listed))
  = assistant_texts listed.
Proof.
  unfold Presentation.assistant_entries, assistant_texts.
  induction listed as [|m listed IH]; [reflexivity|].
  cbn [map filter]. unfold normalized at 1. cbn [md_role]. unfold is_assistant at 1.
  destruct (AgentTool.role m =? "assistant"); cbn [flat_map]; now rewrite IH.
Qed.

End AgentMore.

(** X1. [create_agent_client] sends no request to the service. It
    constructs the credential and then the client for the given endpoint,
    in this order and nothing else, and does not try the client when the
    credential fails. When it returns, it returns the client bound to the
    given endpoint and the default credential, and has printed nothing. *)
Theorem create_agent_client_is_local {W : Type} (svc : AgentTool.Service W) (w : W)
  (endpoint : string) :
  let run := AgentTool.create_agent_client svc endpoint w in
  let client := {| AgentTool.client_endpoint := endpoint;
                   AgentTool.client_credential := AgentTool.DefaultAzureCredential |} in
  AgentTool.remote_calls (Py.events run) = [] /\
  (exists rest,
     map fst (Py.sdk_ops (Py.events run)) ++ rest
     = [ AgentTool.NewDefaultAzureCredential;
         AgentTool.NewAIProjectClient endpoint AgentTool.DefaultAzureCredential ]) /\
  Forall AgentSpec.gave_value (removelast (Py.sdk_ops (Py.events run))) /\
  (forall c, Py.outcome run = Py.Return c ->
     c = client /\
     Py.printed (Py.events run) = [] /\
     map fst (Py.sdk_ops (Py.events run))
     = [ AgentTool.NewDefaultAzureCredential;
         AgentTool.NewAIProjectClient endpoint AgentTool.DefaultAzureCredential ]) /\
  (Py.sdk_errors (Py.events run) = [] -> Py.outcome run = Py.Return client).
Proof.
  unfold_script. cbn zeta. world_cases; cbn.
  all: split; [reflexivity|].
  all: split; [eexists; reflexivity|].
  all: split; [repeat constructor|].
  all: split; [intros c H; try discriminate H|intros H; try discriminate H].
  - injection H as <-. auto.
  - reflexivity.
Qed.

Lemma create_agent_client_is_local_witness :
  let run := AgentTool.create_agent_client
               (Demo.agent_service (Demo.answering Demo.listing)) "E" 0 in
  Py.outcome run = Py.Return Demo.client /\
  AgentTool.remote_calls (Py.events run) = [] /\
  Py.printed (Py.events run) = [].
Proof.
  destruct (create_agent_client_is_local
              (Demo.agent_service (Demo.answering Demo.listing)) 0 "E")
    as (Hnone & _ & _ & Hret & Hok).
  split; [exact (Hok eq_refl)|]. split; [exact Hnone|].
  exact (proj1 (proj2 (Hret Demo.client eq_refl))).
Defined.

(** X2. When [make_agent_inference_request] returns, [thread_id] of the
    result is the id of the thread the service created in this run, and
    [run_id] is the id of the run it gave for that thread and the given
    agent, or None when the run object has no id. *)
Theorem result_names_thread_and_run {W : Type} (svc : AgentTool.Service W) (w : W)
  (endpoint agent_id prompt : string) (result : AgentTool.AgentResult) :
  Py.outcome (AgentTool.make_agent_inference_request svc endpoint agent_id prompt w)
  = Py.Return result ->
  exists c th run,
    In (Py.Sdk (AgentTool.ThreadsCreate c) (Py.Ok (AgentTool.GotThread th)))
       (Py.events (AgentTool.make_agent_inference_request svc endpoint agent_id prompt w)) /\
    In (Py.Sdk (AgentTool.RunsCreateAndProcess c (AgentTool.thread_id_of th) agent_id)
          (Py.Ok (AgentTool.GotRun run)))
       (Py.events (AgentTool.make_agent_inference_request svc endpoint agent_id prompt w)) /\
    AgentTool.thread_id result = AgentTool.thread_id_of th /\
    AgentTool.run_id result = AgentTool.run_id_of run /\
    (AgentTool.run_id_of run = None -> AgentTool.run_id result = None).
Proof.
  intros H.
  destruct (returned_result_is_built svc w endpoint agent_id prompt result H)
    as (c & th & run & listed & Hth & Hrun & _ & ->).
  exists c, th, run. rewrite build_result_eq. cbn. auto.
Qed.

Lemma result_names_thread_and_run_witness :
  let run := AgentTool.make_agent_inference_request
               (Demo.agent_service DemoExtra.run_without_id) "E" "A123" "hi" 0 in
  exists result,
    Py.outcome run = Py.Return result /\
    AgentTool.thread_id result = "thread_7" /\
    AgentTool.run_id result = None.
Proof.
  eexists. split; [reflexivity|].
  destruct (result_names_thread_and_run
              (Demo.agent_service DemoExtra.run_without_id) 0 "E" "A123" "hi" _ eq_refl)
    as (c & th & run & Hth & Hrun & Hid & _ & Hnone).
  split.
  - rewrite Hid. cbn in Hth.
    repeat (destruct Hth as [Hth|Hth]; [try discriminate Hth|]); [|contradiction Hth].
    now injection Hth as _ <-.
  - reflexivity.
Defined.

(** X3. The two fields of a returned result agree: [agent_response] is the
    newline join of the contents of the entries of [messages] whose role is
    "assistant", in order. *)
Theorem response_agrees_with_messages {W : Type} (svc : AgentTool.Service W) (w : W)
  (endpoint agent_id prompt : string) (result : AgentTool.AgentResult) :
  Py.outcome (AgentTool.make_agent_inference_request svc endpoint agent_id prompt w)
  = Py.Return result ->
  AgentTool.agent_response result
  = Py.join Py.newline
      (flat_map AgentTool.md_content
         (filter (fun d => AgentTool.md_role d =? "assistant")
            (AgentTool.messages result))).
Proof.
  intros H.
  destruct (returned_result_is_built svc w endpoint agent_id prompt result H)
    as (c & th & run & listed & _ & _ & _ & ->).
  rewrite build_result_eq. cbn [AgentTool.agent_response AgentTool.messages].
  now rewrite <- assistant_entries_texts.
Qed.

Lemma response_agrees_with_messages_witness :
  let run := AgentTool.make_agent_inference_request
               (Demo.agent_service (Demo.answering Demo.listing)) "E" "A123" "hi" 0 in
  exists result,
    Py.outcome run = Py.Return result /\
    AgentTool.agent_response result
    = Py.join Py.newline
        (flat_map AgentTool.md_content
           (filter (fun d => AgentTool.md_role d =? "assistant")
              (AgentTool.messages result))).
Proof.
  eexists. split; [reflexivity|].
  exact (response_agrees_with_messages
           (Demo.agent_service (Demo.answering Demo.listing)) 0 "E" "A123" "hi" _ eq_refl).
Defined.

(* ------------------------------------------------------------------ *)
(** ** Further properties of the two [main] functions                   *)
(* ------------------------------------------------------------------ *)

Ltac simplify_trace :=
  repeat (progress (cbn;
    rewrite ?sdk_errors_prints, ?sdk_errors_only_prints, ?sdk_ops_prints,
      ?printed_prints, ?entered_prints)).

Ltac settle_status :=
  simplify_trace;
  split; intros H;
  [ try discriminate H; split; reflexivity
  | try (exfalso; apply H; reflexivity); split; reflexivity ].

(** X4. [main] of the agent tool never lets an exception out, in either
    mode: it returns, and the process ends with status 0, exactly when no
    operation of the SDK raised; otherwise it ends by [sys.exit(1)]. *)
Theorem agent_main_exit_status {W : Type} (svc : AgentTool.Service W) (w : W)
  (args : AgentTool.Args) :
  let run := AgentTool.main svc args w in
  (Py.sdk_errors (Py.events run) = [] ->
   Py.outcome run = Py.Return tt /\ Py.exit_status (Py.outcome run) = 0%Z) /\
  (Py.sdk_errors (Py.events run) <> [] ->
   Py.outcome run = Py.SystemExit 1 /\ Py.exit_status (Py.outcome run) = 1%Z).
Proof.
  unfold_script. cbn zeta. destruct (AgentTool.args_list_agents args).
  - world_cases; rewrite ?print_agents_run; settle_status.
  - world_cases;
      try match goal with
          | |- context [Py.truthy ?s] => destruct (Py.truthy s)
          end;
      settle_status.
Qed.

Lemma agent_main_exit_status_witness :
  Py.exit_status
    (Py.outcome (AgentTool.main (Demo.agent_service (Demo.answering Demo.listing))
                   Demo.hi 0)) = 0%Z /\
  Py.exit_status
    (Py.outcome (AgentTool.main (Demo.agent_service Demo.failing_run) Demo.hi 0)) = 1%Z /\
  Py.exit_status
    (Py.outcome (AgentTool.main (Demo.agent_service Demo.failing_client)
                   Demo.list_flag 0)) = 1%Z.
Proof.
  split; [|split].
  - apply (agent_main_exit_status (Demo.agent_service (Demo.answering Demo.listing)) 0
             Demo.hi). reflexivity.
  - apply (agent_main_exit_status (Demo.agent_service Demo.failing_run) 0 Demo.hi).
    discriminate.
  - apply (agent_main_exit_status (Demo.agent_service Demo.failing_client) 0
             Demo.list_flag).
    discriminate.
Defined.

(** X5. [main] of the direct tool never lets an exception out, in either
    mode: it returns, and the process ends with status 0, exactly when no
    operation of the SDK raised; otherwise it ends by [sys.exit(1)]. *)
Theorem direct_main_exit_status {W : Type} (svc : DirectTool.Service W) (w : W)
  (args : DirectTool.Args) :
  let run := DirectTool.main svc args w in
  (Py.sdk_errors (Py.events run) = [] ->
   Py.outcome run = Py.Return tt /\ Py.exit_status (Py.outcome run) = 0%Z) /\
  (Py.sdk_errors (Py.events run) <> [] ->
   Py.outcome run = Py.SystemExit 1 /\ Py.exit_status (Py.outcome run) = 1%Z).
Proof.
  unfold_script. cbn zeta. destruct (DirectTool.args_list_models args).
  - world_cases; settle_status.
  - world_cases;
      try match goal with
          | |- context [DirectTool.print_generated_text ?r ?w1] =>
              destruct (print_generated_text_run r w1) as (lines & ->)
          end;
      settle_status.
Qed.

Lemma direct_main_exit_status_witness :
  Py.exit_status
    (Py.outcome (DirectTool.main (DemoDirect.direct_service DemoDirect.answering)
                   DemoDirect.ping 0)) = 0%Z /\
  Py.exit_status
    (Py.outcome (DirectTool.main (DemoDirect.direct_service DemoDirect.failing_request)
                   DemoDirect.ping 0)) = 1%Z /\
  Py.exit_status
    (Py.outcome (DirectTool.main (DemoDirect.direct_service DemoDirect.failing_construction)
                   DemoDirect.list_flag 0)) = 1%Z.
Proof.
  split; [|split].
  - apply (direct_main_exit_status (DemoDirect.direct_service DemoDirect.answering) 0
             DemoDirect.ping). reflexivity.
  - apply (direct_main_exit_status (DemoDirect.direct_service DemoDirect.failing_request) 0
             DemoDirect.ping). discriminate.
  - apply (direct_main_exit_status
             (DemoDirect.direct_service DemoDirect.failing_construction) 0
             DemoDirect.list_flag). discriminate.
Defined.

(** X6. Without [--list-agents], when [make_agent_inference_request]
    returns a result, [main] ends with status 0 and prints, in this order:
    the agent, the prompt, a rule of 50 dashes, "Response:", the result as
    JSON, and then, only when [agent_response] is not empty, "Agent
    Response:" and the response itself. *)
Theorem agent_main_prints_result {W : Type} (svc : AgentTool.Service W) (w : W)
  (args : AgentTool.Args) (result : AgentTool.AgentResult) :
  AgentTool.args_list_agents args = false ->
  Py.outcome (AgentTool.make_agent_inference_request svc
                (AgentTool.args_endpoint args) (AgentTool.args_agent_id args)
                (AgentTool.args_prompt args) w)
  = Py.Return result ->
  let run := AgentTool.main svc args w in
  let shown :=
    Presentation.header ("Invoking agent: " ++ AgentTool.args_agent_id args)%string
      (AgentTool.args_prompt args)
    ++ [inl "Response:"; inr result] in
  Py.exit_status (Py.outcome run) = 0%Z /\
  (AgentTool.agent_response result = EmptyString ->
   Py.printed (Py.events run) = shown) /\
  (AgentTool.agent_response result <> EmptyString ->
   Py.printed (Py.events run)
   = shown ++ [ inl (Py.newline ++ "Agent Response:")%string;
                inl (AgentTool.agent_response result) ]).
Proof.
  intros Hflag Hret. revert Hret. unfold_script. rewrite Hflag. cbn zeta.
  world_cases; cbn; intros H; try discriminate H.
  injection H as <-.
  destruct (AgentTool.agent_response (AgentTool.build_result _ _ _)) as [|a s] eqn:E;
    cbn; (split; [reflexivity|]); split; intros H; try reflexivity; try discriminate H.
  now contradiction H.
Qed.

Lemma agent_main_prints_result_witness :
  let run := AgentTool.main (Demo.agent_service (Demo.answering Demo.listing)) Demo.hi 0 in
  Py.exit_status (Py.outcome run) = 0%Z /\
  Py.printed (Py.events run)
  = [ inl "Invoking agent: A123";
      inl "Prompt: hi";
      inl "--------------------------------------------------";
      inl "Response:";
      inr (AgentTool.build_result (AgentTool.Build_Thread "thread_1")
             (AgentTool.Build_Run (Some "run_1")) Demo.listing);
      inl (Py.newline ++ "Agent Response:")%string;
      inl ("Hello." ++ Py.newline ++ "How can I help?" ++ Py.newline ++ "Bye.")%string ].
Proof.
  destruct (agent_main_prints_result (Demo.agent_service (Demo.answering Demo.listing)) 0
              Demo.hi _ eq_refl eq_refl) as (Hexit & _ & Hshown).
  split; [exact Hexit|]. apply Hshown. discriminate.
Defined.

(** X7. Without [--list-models], when the service answers the request,
    [main] ends with status 0 and prints, in this order: the model, the
    prompt, a rule of 50 dashes, "Response:", the normalised answer as JSON,
    and then "Generated text:" with the content of the first choice, only
    when there is a first choice and its content is a non-empty string.
    With no choice at all, or a first choice whose content is None or
    empty, nothing follows the JSON; the other choices are never shown
    outside the JSON. *)
Theorem direct_main_prints_result {W : Type} (svc : DirectTool.Service W) (w : W)
  (args : DirectTool.Args) (c : DirectTool.Call) (response : DirectTool.ChatCompletion) :
  DirectTool.args_list_models args = false ->
  In (Py.Sdk c (Py.Ok (DirectTool.GotCompletion response)))
     (Py.events (DirectTool.make_inference_request svc
                   (DirectTool.args_endpoint args) (DirectTool.args_api_key args)
                   (DirectTool.args_model args) (DirectTool.args_prompt args)
                   (DirectTool.args_max_tokens args) (DirectTool.args_temperature args) w)) ->
  let run := DirectTool.main svc args w in
  let result :=
    {| DirectTool.result_id := DirectTool.response_id response;
       DirectTool.result_model := DirectTool.response_model response;
       DirectTool.result_choices :=
         map DirectTool.choice_entry (DirectTool.choices response) |} in
  let shown :=
    Presentation.header
      ("Making inference request with model: " ++ DirectTool.args_model args)%string
      (DirectTool.args_prompt args)
    ++ [inl "Response:"; inr result] in
  Py.exit_status (Py.outcome run) = 0%Z /\
  Py.printed (Py.events run)
  = shown ++ match Presentation.first_choice_text response with
             | Some t => [inl (Py.newline ++ "Generated text:")%string; inl t]
             | None => []
             end /\
  (DirectTool.choices response = [] -> Py.printed (Py.events run) = shown).
Proof.
  intros Hflag Hin. revert Hin. unfold_script. rewrite Hflag. cbn zeta.
  world_cases; intros H; find_event H.
  injection H as _ <-. rewrite append_choice_loop. cbn [app].
  unfold DirectTool.print_generated_text, Presentation.first_choice_text.
  cbn [DirectTool.result_choices].
  destruct (DirectTool.choices _) as [|ch rest]; cbn.
  - repeat split; reflexivity.
  - destruct (DirectTool.content (DirectTool.message ch)) as [t|]; cbn;
      [destruct (Py.truthy t); cbn|]; repeat split; try reflexivity; discriminate.
Qed.

Lemma direct_main_prints_result_witness :
  let run := DirectTool.main (DemoDirect.direct_service DemoDirect.answering)
               DemoDirect.ping 0 in
  Py.exit_status (Py.outcome run) = 0%Z /\
  Py.printed (Py.events run)
  = [ inl "Making inference request with model: gpt-4";
      inl "Prompt: ping";
      inl "--------------------------------------------------";
      inl "Response:";
      inr {| DirectTool.result_id := "chatcmpl-1";
             DirectTool.result_model := "gpt-4";
             DirectTool.result_choices :=
               map DirectTool.choice_entry (DirectTool.choices DemoDirect.completion) |};
      inl (Py.newline ++ "Generated text:")%string;
      inl "pong" ].
Proof.
  assert (H : In (Py.Sdk DemoDirect.ping_request
                    (Py.Ok (DirectTool.GotCompletion DemoDirect.completion)))
                (Py.events (DirectTool.make_inference_request
                   (DemoDirect.direct_service DemoDirect.answering)
                   "https://x.openai.azure.com" "K" "gpt-4" "ping" 5 0%float 0))).
  { cbn. do 2 right. left. reflexivity. }
  destruct (direct_main_prints_result (DemoDirect.direct_service DemoDirect.answering) 0
              DemoDirect.ping _ DemoDirect.completion eq_refl H) as (Hexit & Hshown & _).
  split; [exact Hexit|exact Hshown].
Defined.

Section MoreTraceFacts.
Import Py.
Context {Call Resp Json : Type}.

Lemma sdk_ops_only_prints (lines : list string) :
  sdk_ops (map (@Print Call Resp Json) lines) = [].
Proof. induction lines; simpl; trivial. Qed.

Lemma entered_only_prints (lines : list string) :
  entered (map (@Print Call Resp Json) lines) = [].
Proof. induction lines; simpl; trivial. Qed.

Lemma printed_only_prints (lines : list string) :
  printed (map (@Print Call Resp Json) lines) = map inl lines.
Proof. induction lines; simpl; trivial. now f_equal. Qed.

Lemma not_json_in_lines (lines : list string) (j : Json) :
  ~ In (inr j) (map (@inl string Json) lines).
Proof. intros H. apply in_map_iff in H. destruct H as (? & H & _). discriminate H. Qed.

End MoreTraceFacts.

Section JoinFacts.
Import Py.

Lemma append_nonempty_r (s t : string) :
  t <> EmptyString -> (s ++ t)%string <> EmptyString.
Proof. destruct s; simpl; [trivial|discriminate]. Qed.

Lemma append_nonempty_l (s t : string) :
  s <> EmptyString -> (s ++ t)%string <> EmptyString.
Proof. destruct s; simpl; [congruence|discriminate]. Qed.

Lemma join_In_nonempty (sep v : string) (l : list string) :
  In v l -> v <> EmptyString -> join sep l <> EmptyString.
Proof.
  unfold join. intros Hin Hv. induction l as [|x l IH]; [contradiction|].
  destruct l as [|y l].
  - destruct Hin as [->|[]]. exact Hv.
  - change (String.concat sep (x :: y :: l))
      with (x ++ sep ++ String.concat sep (y :: l))%string.
    destruct Hin as [->|Hin].
    + now apply append_nonempty_l.
    + apply append_nonempty_r, append_nonempty_r. now apply IH.
Qed.

End JoinFacts.

Ltac simplify_run :=
  repeat (progress (cbn;
    rewrite ?sdk_errors_prints, ?sdk_errors_only_prints, ?sdk_ops_prints,
      ?sdk_ops_only_prints, ?printed_prints, ?printed_only_prints,
      ?entered_prints, ?entered_only_prints)).








(** X11. For every listing the service gives, [agent_response] is not empty
    as soon as some assistant message carries a non-empty text value, and
    a non-empty [agent_response] means that some assistant message carries
    a text value. *)
Theorem response_is_empty_only_without_text {W : Type} (svc : AgentTool.Service W) (w : W)
  (endpoint agent_id prompt : string)
  (c : AgentTool.AIProjectClient) (tid : string) (listed : list AgentTool.Message) :
  In (Py.Sdk (AgentTool.MessagesList c tid) (Py.Ok (AgentTool.GotMessages listed)))
     (Py.events (AgentTool.make_agent_inference_request svc endpoint agent_id prompt w)) ->
  exists result,
    Py.outcome (AgentTool.make_agent_inference_request svc endpoint agent_id prompt w)
    = Py.Return result /\
    ((exists v, assistant_fragment_value listed v /\ v <> EmptyString) ->
     AgentTool.agent_response result <> EmptyString) /\
    (AgentTool.agent_response result <> EmptyString ->
     exists v, assistant_fragment_value listed v).
Proof.
  intros H.
  destruct (request_returns_built_result svc w endpoint agent_id prompt c tid listed H)
    as (th & run & _ & Hout).
  exists (AgentTool.build_result th run listed). split; [exact Hout|].
  rewrite build_result_eq. cbn [AgentTool.agent_response]. split.
  - intros (v & Hv & Hne). apply (join_In_nonempty _ v); [|exact Hne].
    now apply assistant_texts_In.
  - intros Hne. apply join_nonempty in Hne.
    destruct (AgentSpec.assistant_texts listed) as [|v vs] eqn:E; [congruence|].
    exists v. apply assistant_texts_In. rewrite E. simpl; auto.
Qed.

Lemma response_is_empty_only_without_text_witness :
  let run := AgentTool.make_agent_inference_request
               (Demo.agent_service (Demo.answering Demo.listing)) "E" "A123" "hi" 0 in
  exists result,
    Py.outcome run = Py.Return result /\
    AgentTool.agent_response result <> EmptyString.
Proof.
  assert (H : In (Py.Sdk (AgentTool.MessagesList Demo.client "thread_1")
                    (Py.Ok (AgentTool.GotMessages Demo.listing)))
                (Py.events (AgentTool.make_agent_inference_request
                   (Demo.agent_service (Demo.answering Demo.listing)) "E" "A123" "hi" 0))).
  { cbn. do 7 right. left. reflexivity. }
  destruct (response_is_empty_only_without_text
              (Demo.agent_service (Demo.answering Demo.listing)) 0 "E" "A123" "hi"
              Demo.client "thread_1" Demo.listing H) as (result & Hout & Hne & _).
  exists result. split; [exact Hout|]. apply Hne.
  exists "Bye.". split; [|discriminate].
  exists (nth 4 Demo.listing (AgentTool.Build_Message EmptyString None)),
    [Demo.text_part "Bye."], (Demo.text_part "Bye.").
  cbn. intuition.
Defined.

Ltac no_json H :=
  repeat first
    [ destruct H as [H|H]; [try discriminate H|]
    | apply in_app_iff in H; destruct H as [H|H];
      [now apply not_json_in_lines in H|]
    | now apply not_json_in_lines in H ];
  try contradiction H.

(** X12. Neither tool prints a partial result: a JSON result is printed only
    in inference mode (without the listing flag) and only in a run where no
    operation of the SDK raised. *)
Theorem result_is_printed_only_on_success :
  (forall (W : Type) (svc : DirectTool.Service W) (w : W) (args : DirectTool.Args)
          (j : DirectTool.InferenceResult),
     In (inr j) (Py.printed (Py.events (DirectTool.main svc args w))) ->
     DirectTool.args_list_models args = false /\
     Py.sdk_errors (Py.events (DirectTool.main svc args w)) = []) /\
  (forall (W : Type) (svc : AgentTool.Service W) (w : W) (args : AgentTool.Args)
          (j : AgentTool.AgentResult),
     In (inr j) (Py.printed (Py.events (AgentTool.main svc args w))) ->
     AgentTool.args_list_agents args = false /\
     Py.sdk_errors (Py.events (AgentTool.main svc args w)) = []).
Proof.
  split; intros W svc w args j.
  - unfold_script. destruct (DirectTool.args_list_models args).
    + world_cases; simplify_run; intros H; no_json H.
    + world_cases;
        try match goal with
            | |- context [DirectTool.print_generated_text ?r ?w1] =>
                destruct (print_generated_text_run r w1) as (lines & ->)
            end;
        simplify_run; intros H; (split; [reflexivity|]); try reflexivity; no_json H.
  - unfold_script. destruct (AgentTool.args_list_agents args).
    + world_cases; rewrite ?print_agents_run; simplify_run; intros H; no_json H.
    + world_cases;
        try match goal with
            | |- context [Py.truthy ?s] => destruct (Py.truthy s)
            end;
        simplify_run; intros H; (split; [reflexivity|]); try reflexivity; no_json H.
Qed.

Lemma result_is_printed_only_on_success_witness :
  Py.sdk_errors
    (Py.events (DirectTool.main (DemoDirect.direct_service DemoDirect.answering)
                  DemoDirect.ping 0)) = [] /\
  Py.sdk_errors
    (Py.events (AgentTool.main (Demo.agent_service (Demo.answering Demo.listing))
                  Demo.hi 0)) = [].
Proof.
  destruct result_is_printed_only_on_success as [Hdirect Hagent]. split.
  - refine (proj2 (Hdirect nat (DemoDirect.direct_service DemoDirect.answering) 0
                     DemoDirect.ping _ _)).
    cbn. do 4 right. left. reflexivity.
  - refine (proj2 (Hagent nat (Demo.agent_service (Demo.answering Demo.listing)) 0
                     Demo.hi _ _)).
    cbn. do 4 right. left. reflexivity.
Defined.
